(** * humblebundle-rss: the feed server of [src/index.ts]

    A shallow embedding of the scraper pipeline (fetch, extract, validate,
    flatten, sort), of the two renderers and of the HTTP dispatcher, with the
    properties the specification states about them.

    Conventions of the embedding.
    - A JavaScript string is a Rocq [string]. The metacharacters the code
      looks for are ASCII, so replacing them works the same on UTF-8 bytes as
      on UTF-16 code units.
    - A thrown exception is the left summand of a sum; [try]/[catch] is a
      [match] on it.
    - What the runtime supplies (date parsing and formatting, [JSON.parse],
      URL validity, the text of a ZodError) is a field of the class
      [Runtime]; the clock is an explicit argument [now].

    Layout: the program; the vocabulary of the specification; a runtime and
    sample pages to run the program with; the properties. *)

From Stdlib Require Import ZArith QArith List String Ascii Bool Arith Lia.
From Stdlib Require Import Sorted Permutation DecimalString.
Import ListNotations.
Close Scope Q_scope.
Open Scope string_scope.

(** * The program *)

(** ** Strings as the code uses them *)

Module Str.

(** The double quote and the line feed, which template literals of the
    source contain. *)
Definition DQ : string := String "034"%char EmptyString.

Definition NL : string := String "010"%char EmptyString.

(** [s.replace(/c/g, r)] for a one-character pattern and a replacement text
    without [$]: every occurrence of [c], left to right, becomes [r]. *)
Fixpoint replaceAll (c : ascii) (r : string) (s : string) : string :=
  match s with
  | EmptyString => EmptyString
  | String a s' =>
      if Ascii.eqb a c then r ++ replaceAll c r s'
      else String a (replaceAll c r s')
  end.

(** [parts.join(sep)] *)
Fixpoint join (sep : string) (parts : list string) : string :=
  match parts with
  | [] => EmptyString
  | [p] => p
  | p :: rest => p ++ sep ++ join sep rest
  end.

(** [s] starts with [p]: the text after [p], when it does. *)
Fixpoint stripPrefix (p s : string) : option string :=
  match p, s with
  | EmptyString, _ => Some s
  | String a p', String b s' =>
      if Ascii.eqb a b then stripPrefix p' s' else None
  | String _ _, EmptyString => None
  end.

(** The text after the first occurrence of [p] in [s]. *)
Fixpoint afterFirst (p s : string) : option string :=
  match stripPrefix p s with
  | Some rest => Some rest
  | None =>
      match s with
      | EmptyString => None
      | String _ s' => afterFirst p s'
      end
  end.

(** The text before the first occurrence of [p] in [s]. *)
Fixpoint beforeFirst (p s : string) : option string :=
  match stripPrefix p s with
  | Some _ => Some EmptyString
  | None =>
      match s with
      | EmptyString => None
      | String a s' => option_map (String a) (beforeFirst p s')
      end
  end.

(** [sub] occurs in [s]. *)
Definition Occurs (sub s : string) : Prop :=
  exists pre post, s = pre ++ sub ++ post.

(** [c] is one of the characters of [s]. *)
Fixpoint hasChar (c : ascii) (s : string) : bool :=
  match s with
  | EmptyString => false
  | String a s' => Ascii.eqb a c || hasChar c s'
  end.

(** Character-wise substitution: each character replaced by a text. *)
Fixpoint substChars (f : ascii -> string) (s : string) : string :=
  match s with
  | EmptyString => EmptyString
  | String a s' => f a ++ substChars f s'
  end.

(** ASCII [toUpperCase] of one character. *)
Definition upper (c : ascii) : ascii :=
  let n := nat_of_ascii c in
  if (97 <=? n)%nat && (n <=? 122)%nat then ascii_of_nat (n - 32) else c.

End Str.

Import Str.

(** ** Data model *)

(** [Product], the type inferred from [ProductSchema]. The two date keys are
    ["start_date|datetime"] and ["end_date|datetime"] in the source. *)
Record Product := mkProduct {
  machine_name : string;
  tile_name : string;
  product_url : string;
  detailed_marketing_blurb : string;
  tile_image : string;
  start_date_datetime : string;
  end_date_datetime : string;
  tile_stamp : string
}.

Record SectionData := mkSection { products : list Product }.

Record CategoryData := mkCategory { mosaic : list SectionData }.

(** The three category keys are optional: [None] is an absent key. *)
Record Data := mkData {
  books : option CategoryData;
  games : option CategoryData;
  software : option CategoryData
}.

Record LandingPage := mkLandingPage { data : Data }.

(** The selector of a filtered route: ["games" | "books" | "software"]. *)
Inductive Selector := SelGames | SelBooks | SelSoftware.

Definition selectorText (c : Selector) : string :=
  match c with
  | SelGames => "games"
  | SelBooks => "books"
  | SelSoftware => "software"
  end.

Definition Product_eq_dec (p q : Product) : {p = q} + {p <> q}.
Proof. decide equality; apply string_dec. Defined.

(** ** JSON values and the schema combinators

    The combinators are those of zod that the schemas of the source use,
    with the behaviour the library documents: a schema validates the value
    found at a path and yields the typed value or the issues, each with its
    path; an object schema validates every member of its shape, an array
    schema every element, and the issues of all of them are collected. *)

(** What [JSON.parse] returns. A number keeps the text of its literal: no
    schema of this program accepts one. *)
#[warnings="-register-all"]
Inductive Json :=
| JNull
| JBool (b : bool)
| JNumber (literal : string)
| JString (s : string)
| JArray (items : list Json)
| JObject (members : list (string * Json)).

(** [obj[key]]: [None] is [undefined]. *)
Fixpoint getMember (key : string) (members : list (string * Json)) : option Json :=
  match members with
  | [] => None
  | (k, v) :: rest => if String.eqb k key then Some v else getMember key rest
  end.

Inductive PathSeg := Key (k : string) | Index (i : nat).

Definition Path := list PathSeg.

Inductive IssueCode :=
| invalid_type (expected : string)
| invalid_format (format : string).

(** One issue of a ZodError: what was wrong, and where in the input. *)
Record Issue := mkIssue { code : IssueCode; path : Path }.

(** The outcome of validating one value: the issues found, or the typed
    value. *)
Definition Parsed (A : Type) : Type := list Issue + A.

Definition issuesOf {A} (r : Parsed A) : list Issue :=
  match r with inl issues => issues | inr _ => [] end.

Definition pmap {A B} (f : A -> B) (r : Parsed A) : Parsed B :=
  match r with inl issues => inl issues | inr a => inr (f a) end.

(** Validation goes on after a failure, so that every issue is reported:
    the issues of both sides are kept, in order. *)
Definition pap {A B} (f : Parsed (A -> B)) (x : Parsed A) : Parsed B :=
  match f, x with
  | inr g, inr a => inr (g a)
  | inl i, inr _ => inl i
  | inr _, inl j => inl j
  | inl i, inl j => inl (i ++ j)%list
  end.

(** A schema reads the value found at a path; [None] is [undefined], the
    value of an absent key. *)
Definition Schema (A : Type) : Type := Path -> option Json -> Parsed A.

(** The members of an object schema, read off the object's properties. *)
Definition Shape (A : Type) : Type := Path -> list (string * Json) -> Parsed A.

Definition z_string : Schema string := fun p v =>
  match v with
  | Some (JString s) => inr s
  | _ => inl [mkIssue (invalid_type "string") p]
  end.

(** [z.url()]: a string that the URL check accepts. [check] returns the
    value the schema outputs, or [None] for a string that is no URL. *)
Definition z_url (check : string -> option string) : Schema string := fun p v =>
  match v with
  | Some (JString s) =>
      match check s with
      | Some out => inr out
      | None => inl [mkIssue (invalid_format "url") p]
      end
  | _ => inl [mkIssue (invalid_type "string") p]
  end.

Fixpoint parseItems {A} (element : Schema A) (p : Path) (i : nat)
    (items : list Json) : Parsed (list A) :=
  match items with
  | [] => inr []
  | x :: rest =>
      pap (pmap cons (element (p ++ [Index i])%list (Some x)))
          (parseItems element p (S i) rest)
  end.

Definition z_array {A} (element : Schema A) : Schema (list A) := fun p v =>
  match v with
  | Some (JArray items) => parseItems element p 0 items
  | _ => inl [mkIssue (invalid_type "array") p]
  end.

Definition z_optional {A} (s : Schema A) : Schema (option A) := fun p v =>
  match v with
  | None => inr None
  | Some _ => pmap Some (s p v)
  end.

Definition shapeOf {A} (make : A) : Shape A := fun _ _ => inr make.

Definition withKey {A B} (sh : Shape (A -> B)) (member : string * Schema A)
    : Shape B := fun p members =>
  pap (sh p members)
      (snd member (p ++ [Key (fst member)])%list (getMember (fst member) members)).

Definition z_object {A} (sh : Shape A) : Schema A := fun p v =>
  match v with
  | Some (JObject members) => sh p members
  | _ => inl [mkIssue (invalid_type "object") p]
  end.

Notation "sh <&> member" := (withKey sh member)
  (at level 50, left associativity).

(** ** What the runtime supplies *)

(** A time value: milliseconds since the epoch, [None] for [NaN] (the time
    value of an invalid date). *)
Definition TimeValue := option Z.

Class Runtime := {
  (** [new Date(text).getTime()] *)
  Date_getTime : string -> TimeValue;
  (** [date.toUTCString()] *)
  toUTCString : TimeValue -> string;
  (** [date.toLocaleDateString("en-US", {month: "long", day: "numeric",
      year: "numeric"})] *)
  toLocaleDateString : TimeValue -> string;
  (** [JSON.parse(text)]: the value, or the message of the SyntaxError *)
  JSON_parse : string -> string + Json;
  (** The check of [z.url()]: the output value, [None] for an invalid URL *)
  URL_check : string -> option string;
  (** The message of a ZodError with these issues *)
  ZodError_message : list Issue -> string
}.

(** ** Schemas (lines 7-34) *)

Section Schemas.
Context {rt : Runtime}.

Definition ProductSchema : Schema Product :=
  z_object (shapeOf mkProduct
    <&> ("machine_name", z_string)
    <&> ("tile_name", z_string)
    <&> ("product_url", z_string)
    <&> ("detailed_marketing_blurb", z_string)
    <&> ("tile_image", z_url URL_check)
    <&> ("start_date|datetime", z_string)
    <&> ("end_date|datetime", z_string)
    <&> ("tile_stamp", z_string)).

Definition SectionSchema : Schema SectionData :=
  z_object (shapeOf mkSection <&> ("products", z_array ProductSchema)).

Definition CategorySchema : Schema CategoryData :=
  z_object (shapeOf mkCategory <&> ("mosaic", z_array SectionSchema)).

Definition DataSchema : Schema Data :=
  z_object (shapeOf mkData
    <&> ("books", z_optional CategorySchema)
    <&> ("games", z_optional CategorySchema)
    <&> ("software", z_optional CategorySchema)).

Definition LandingPageSchema : Schema LandingPage :=
  z_object (shapeOf mkLandingPage <&> ("data", DataSchema)).

End Schemas.

(** ** Numbers of the page renderer *)

(** [hoursLeft] is a double. The time values it is computed from are
    integers (milliseconds), the division by 3600000 is correctly rounded
    and monotone, and the bounds 0, 24 and 168 are doubles themselves: each
    comparison of the source holds exactly when it holds of the rational
    quotient. A number is therefore a rational, or [None] for [NaN]; a
    comparison with [NaN] is false. *)
Definition Num := option Q.

Definition num_le (a b : Num) : bool :=
  match a, b with
  | Some x, Some y => Qle_bool x y
  | _, _ => false
  end.

Definition num_gt (a b : Num) : bool :=
  match a, b with
  | Some x, Some y => negb (Qle_bool x y)
  | _, _ => false
  end.

Definition num (z : Z) : Num := Some (inject_Z z).

(** [(endDate.getTime() - now) / (1000 * 60 * 60)] *)
Definition hoursLeftOf (endTime : TimeValue) (now : Z) : Num :=
  match endTime with
  | Some t => Some ((t - now) # 3600000)%Q
  | None => None
  end.

(** Lines 175-177. *)
Definition statusClassOf (hoursLeft : Num) : string :=
  if num_le hoursLeft (num 24) && num_gt hoursLeft (num 0) then "urgent"
  else if num_le hoursLeft (num 168) then "soon"
  else "ok".

(** ** Escaping (lines 92-103 and 160-166) *)

Definition escapeXml (str : string) : string :=
  replaceAll "'" "&apos;"
    (replaceAll "034" "&quot;"
      (replaceAll ">" "&gt;"
        (replaceAll "<" "&lt;"
          (replaceAll "&" "&amp;" str)))).

(** [html.replace(/<[^>]*>/g, "")]: every span from a [<] to the next [>]
    is deleted; a [<] with no [>] after it stays. The first component is
    the text with the spans deleted; the second is that of the text after
    the next [>], when there is one. *)
Fixpoint stripSpans (html : string) : string * option string :=
  match html with
  | EmptyString => (EmptyString, None)
  | String c rest =>
      let (outside, inside) := stripSpans rest in
      (if Ascii.eqb c "<" then
         match inside with
         | Some after => after
         | None => String c outside
         end
       else String c outside,
       if Ascii.eqb c ">" then Some outside else inside)
  end.

Definition stripHtml (html : string) : string := fst (stripSpans html).

Definition escapeHtml (str : string) : string :=
  replaceAll "034" "&quot;"
    (replaceAll ">" "&gt;"
      (replaceAll "<" "&lt;"
        (replaceAll "&" "&amp;" str))).

(** ** Renderers *)

Definition HUMBLE_BUNDLES_URL : string := "https://www.humblebundle.com/bundles".

Definition favicon : string :=
  "<?xml version=" ++ DQ ++ "1.0" ++ DQ ++ " encoding=" ++ DQ ++ "UTF-8" ++
  DQ ++ "?>
<svg width=" ++ DQ ++ "48" ++ DQ ++ " height=" ++ DQ ++ "48" ++ DQ ++
  " viewBox=" ++ DQ ++ "0 0 1024 1024" ++ DQ ++ " version=" ++ DQ ++ "1.1" ++
  DQ ++ " xmlns=" ++ DQ ++ "http://www.w3.org/2000/svg" ++ DQ ++ ">
  <circle cx=" ++ DQ ++ "50%" ++ DQ ++ " cy=" ++ DQ ++ "50%" ++ DQ ++
  " r=" ++ DQ ++ "50%" ++ DQ ++ " fill=" ++ DQ ++ "#D0011B" ++ DQ ++ "/>
  <path transform=" ++ DQ ++ "scale(0.7,0.7) translate(220, 225)" ++ DQ ++
  " d=" ++ DQ ++
  "M765.201172,820.589844 C620.475426,820.589844 843.283203,0.189453125 843.283203,0.189453125 L694.142578,5.68434189e-14 C694.142578,5.68434189e-14 633.090481,193.090536 592.811289,407.652717 L464.271164,407.652717 C467.639745,363.532521 469.262415,318.878282 468.522971,274.491064 C462.730655,-78.7375255 255.842002,-13.3140749 163.226562,67.7578125 C75.1710315,144.824375 1.42382812,291.240234 0,403.996094 C14.0273437,403.3125 69.4453125,403.074219 69.4453125,403.074219 C69.4453125,403.074219 115.528161,192.837891 260.253906,192.837891 C404.959112,192.837891 181.810547,1013.25 181.810547,1013.25 L331.015625,1013.36133 C331.015625,1013.36133 408.132049,793.724753 446.480469,548.455078 L569.224609,547.75 C562.076645,611.218997 559.803302,681.30885 560.850849,746.400517 C566.663705,1099.62911 772.743935,1023.82674 865.359375,942.775391 C957.974815,861.703503 1027.08594,690.517578 1026.23242,608.322266 C1026.3457,608.228516 955.882812,608.892578 955.037109,608.875 C955.279297,615.365234 909.906377,820.589844 765.201172,820.589844 Z" ++
  DQ ++ " fill=" ++ DQ ++ "white" ++ DQ ++ "/>
</svg>".

(** The static text of the homepage before and after the list entries
    (lines 188-264 and 266-272). *)
(** The static text of the homepage before and after the list entries
    (lines 188-264 and 266-272). *)
Definition homepageHead : string :=
  "<!DOCTYPE html>
<html lang=" ++ DQ ++ "en" ++ DQ ++ ">
<head>
  <meta charset=" ++ DQ ++ "UTF-8" ++ DQ ++ ">
  <meta name=" ++ DQ ++ "viewport" ++ DQ ++ " content=" ++ DQ ++
  "width=device-width, initial-scale=1.0" ++ DQ ++ ">
  <title>Humble Bundle RSS Feeds</title>
  <meta name=" ++ DQ ++ "description" ++ DQ ++ " content=" ++ DQ ++
  "Unofficial RSS feeds for current Humble Bundle offerings." ++ DQ ++ ">
  <link rel=" ++ DQ ++ "alternate" ++ DQ ++ " type=" ++ DQ ++
  "application/rss+xml" ++ DQ ++ " title=" ++ DQ ++ "Humble Bundle RSS" ++
  DQ ++ " href=" ++ DQ ++ "/rss" ++ DQ ++ ">
  <link rel=" ++ DQ ++ "icon" ++ DQ ++ " type=" ++ DQ ++ "image/svg+xml" ++
  DQ ++ " href=" ++ DQ ++ "/favicon.ico" ++ DQ ++ ">
  <style>
    :root {
      --bg: #fafafa;
      --fg: #222;
      --muted: #666;
      --link: #0066cc;
      --accent: #b33;
      --border: #ccc;
      --green: #1a7a1a;
      --yellow: #7a6a00;
      --red: #b33;
    }
    @media (prefers-color-scheme: dark) {
      :root {
        --bg: #1a1a1a;
        --fg: #e0e0e0;
        --muted: #888;
        --link: #6cf;
        --accent: #e66;
        --border: #444;
        --green: #5a5;
        --yellow: #ca3;
        --red: #e55;
      }
    }
    * { box-sizing: border-box; }
    body {
      font-family: ui-monospace, " ++ DQ ++ "Cascadia Code" ++ DQ ++ ", " ++
  DQ ++ "Source Code Pro" ++ DQ ++ ", Menlo, Consolas, monospace;
      font-size: 14px;
      line-height: 1.6;
      background: var(--bg);
      color: var(--fg);
      max-width: 72ch;
      margin: 0 auto;
      padding: 2rem 1rem;
    }
    h1 { font-size: 1em; font-weight: bold; margin: 0 0 0.5rem 0; }
    h2 { font-size: 1em; font-weight: bold; margin: 1.5rem 0 0.5rem 0; color: var(--accent); }
    p { margin: 0.5rem 0; }
    a { color: var(--link); }
    a:visited { color: var(--link); opacity: 0.8; }
    .meta { color: var(--muted); }
    .feeds { margin: 1rem 0; }
    .feeds a { margin-right: 1.5em; }
    ol { padding-left: 2.5em; margin: 0.5rem 0; }
    li { padding: 0.15rem 0; }
    .entry { display: block; white-space: nowrap; overflow: hidden; text-overflow: ellipsis; }
    .ok a { color: var(--green); }
    .soon a { color: var(--yellow); }
    .urgent a { color: var(--red); }
  </style>
</head>
<body>
  <h1>HUMBLE BUNDLE RSS FEEDS</h1>
  <p>Unofficial RSS feeds for current Humble Bundle offerings.</p>

  <h2>FEEDS</h2>
  <div class=" ++ DQ ++ "feeds" ++ DQ ++ ">
    <a target=" ++ DQ ++ "_blank" ++ DQ ++ " href=" ++ DQ ++ "/rss" ++ DQ ++
  ">/rss</a>
    <a target=" ++ DQ ++ "_blank" ++ DQ ++ " href=" ++ DQ ++ "/games" ++
  DQ ++ ">/games</a>
    <a target=" ++ DQ ++ "_blank" ++ DQ ++ " href=" ++ DQ ++ "/books" ++
  DQ ++ ">/books</a>
    <a target=" ++ DQ ++ "_blank" ++ DQ ++ " href=" ++ DQ ++ "/software" ++
  DQ ++ ">/software</a>
  </div>
  <p class=" ++ DQ ++ "meta" ++ DQ ++
  ">Add any feed URL to your RSS reader.</p>

  <h2>CURRENT BUNDLES</h2>
  <div data-nosnippet>
    <ol>
".

Definition homepageFoot : string :=
  "
    </ol>
  </div>

  <p class=" ++ DQ ++ "meta" ++ DQ ++ ">Data from <a target=" ++ DQ ++
  "_blank" ++ DQ ++ " href=" ++ DQ ++
  "https://www.humblebundle.com/bundles" ++ DQ ++ ">humblebundle.com</a></p>
  <p class=" ++ DQ ++ "meta" ++ DQ ++ ">See <a target=" ++ DQ ++ "_blank" ++
  DQ ++ " href=" ++ DQ ++ "https://github.com/zeen/humblebundle-rss" ++ DQ ++
  ">GitHub</a> for bug reports and pull requests.</p>
</body>
</html>".

Section Renderers.
Context {rt : Runtime}.

(** One [<item>] of the feed (lines 114-138). The local [description] is
    built and never used. *)
Definition rssItem (product : Product) : string :=
  let link := "https://www.humblebundle.com" ++ product_url product in
  let pubDate := toUTCString (Date_getTime (start_date_datetime product)) in
  let endDate := Date_getTime (end_date_datetime product) in
  let description :=
    stripHtml (detailed_marketing_blurb product) ++ NL ++ NL ++ "Ends: " ++
    toLocaleDateString endDate in
  "    <item>
      <title>" ++ escapeXml (tile_name product) ++ "</title>
      <link>" ++ escapeXml link ++ "</link>
      <description><![CDATA[<img src=" ++ DQ ++ tile_image product ++ DQ ++
  " /><br/><br/>" ++ detailed_marketing_blurb product ++
  "<br/><br/><strong>Ends:</strong> " ++ toLocaleDateString endDate ++
  "]]></description>
      <pubDate>" ++ pubDate ++ "</pubDate>
      <guid isPermaLink=" ++ DQ ++ "false" ++ DQ ++ ">" ++
  escapeXml (machine_name product) ++ "</guid>
      <category>" ++ escapeXml (tile_stamp product) ++ "</category>
    </item>".

(** Lines 105-154; [now] is the clock at render time. *)
Definition generateRss (now : Z) (products : list Product)
    (title canonicalUrl : string) : string :=
  let now := toUTCString (Some now) in
  let items := join NL (map rssItem products) in
  "<?xml version=" ++ DQ ++ "1.0" ++ DQ ++ " encoding=" ++ DQ ++ "UTF-8" ++
  DQ ++ "?>
<rss version=" ++ DQ ++ "2.0" ++ DQ ++ " xmlns:atom=" ++ DQ ++
  "http://www.w3.org/2005/Atom" ++ DQ ++ ">
  <channel>
    <title>" ++ escapeXml title ++ "</title>
    <link>" ++ HUMBLE_BUNDLES_URL ++ "</link>
    <description>Current bundles available on Humble Bundle</description>
    <language>en-us</language>
    <lastBuildDate>" ++ now ++ "</lastBuildDate>
    <atom:link href=" ++ DQ ++ canonicalUrl ++ DQ ++ " rel=" ++ DQ ++
  "self" ++ DQ ++ " type=" ++ DQ ++ "application/rss+xml" ++ DQ ++ "/>
" ++ items ++ "
  </channel>
</rss>".

(** The urgency tier of one product at time [now] (lines 173-177). *)
Definition statusClassAt (now : Z) (p : Product) : string :=
  let endDate := Date_getTime (end_date_datetime p) in
  let hoursLeft := hoursLeftOf endDate now in
  statusClassOf hoursLeft.

(** One [<li>] of the homepage (lines 171-185). *)
Definition homepageEntry (now : Z) (p : Product) : string :=
  let link := "https://www.humblebundle.com" ++ product_url p in
  let statusClass := statusClassAt now p in
  "      <li><span class=" ++ DQ ++ "entry " ++ statusClass ++ DQ ++
  "><span class=" ++ DQ ++ "cat" ++ DQ ++ ">[" ++
  escapeHtml (tile_stamp p) ++ "]</span> <a href=" ++ DQ ++
  escapeHtml link ++ DQ ++ " title=" ++ DQ ++ escapeHtml (tile_name p) ++
  DQ ++ " target=" ++ DQ ++ "_blank" ++ DQ ++ " rel=" ++ DQ ++
  "noopener noreferrer nofollow" ++ DQ ++ ">" ++ escapeHtml (tile_name p) ++
  "</a></span></li>".

(** Lines 168-273; [now] is [Date.now()]. *)
Definition generateHomepage (now : Z) (products : list Product) : string :=
  let feedItems := join NL (map (homepageEntry now) products) in
  homepageHead ++ feedItems ++ homepageFoot.

End Renderers.

(** ** Exceptions and responses *)

(** A thrown value: an [Error] object with its message, or anything else. *)
Inductive Thrown := ErrorObject (message : string) | OtherValue.

Definition Result (A : Type) : Type := Thrown + A.

Definition throw {A} (e : Thrown) : Result A := inl e.

Definition ret {A} (a : A) : Result A := inr a.

Definition bind {A B} (r : Result A) (k : A -> Result B) : Result B :=
  match r with
  | inl e => inl e
  | inr a => k a
  end.

Notation "x <- r ;; k" := (bind r (fun x => k))
  (at level 61, r at next level, right associativity).

(** [error instanceof Error ? error.message : "Unknown error"] *)
Definition messageOf (error : Thrown) : string :=
  match error with
  | ErrorObject message => message
  | OtherValue => "Unknown error"
  end.

(** A [Response], received from upstream or sent to the client. *)
Record Response := mkResponse {
  status : N;
  headers : list (string * string);
  body : string
}.

(** [response.ok]: a status in the range 200-299. *)
Definition ok (r : Response) : bool :=
  (200 <=? status r)%N && (status r <=? 299)%N.

(** [new Response(body, { headers })]: the status defaults to 200. *)
Definition okResponse (b : string) (h : list (string * string)) : Response :=
  mkResponse 200 h b.

Definition getHeader (name : string) (r : Response) : option string :=
  match find (fun kv => String.eqb (fst kv) name) (headers r) with
  | Some kv => Some (snd kv)
  | None => None
  end.

(** What [await fetch(url)] does: it throws, or it yields a response. *)
Inductive FetchOutcome := Rejects (e : Thrown) | Resolves (r : Response).

Definition fetch (upstream : FetchOutcome) : Result Response :=
  match upstream with
  | Rejects e => throw e
  | Resolves r => ret r
  end.

(** The decimal text of a number, as a template literal prints it. *)
Definition decimal (n : N) : string := NilEmpty.string_of_uint (N.to_uint n).

(** ** Extraction (lines 43-56) *)

Definition scriptOpen : string :=
  "<script id=" ++ DQ ++ "landingPage-json-data" ++ DQ ++ " type=" ++ DQ ++
  "application/json" ++ DQ ++ ">".

Definition scriptClose : string := "</script>".

(** Group 1 of [html.match(SCRIPT_TAG_REGEX)]. The pattern is the opening
    tag, a lazy [[\s\S]*?] and the closing tag. A closing tag that follows a
    later opening tag follows the first one too, so the leftmost match
    starts at the first opening tag; the lazy group then ends at the first
    closing tag after it. *)
Definition matchScriptTag (html : string) : option string :=
  match afterFirst scriptOpen html with
  | Some rest => beforeFirst scriptClose rest
  | None => None
  end.

(** ** Sorting *)

(** [Array.prototype.sort] with a comparator. A comparator result of [NaN]
    counts as [+0]. The sort is stable; for a comparator that orders the
    elements consistently the result does not depend on the algorithm (see
    [stable_sort_unique]), and this one is the insertion sort. *)
Section ArraySort.
Context {A : Type} (comparefn : A -> A -> option Z).

Definition sortCompare (x y : A) : Z :=
  match comparefn x y with
  | Some v => v
  | None => 0
  end.

(** [x] stood before every element of [l]: it moves behind those that sort
    strictly before it. *)
Fixpoint sortInsert (x : A) (l : list A) : list A :=
  match l with
  | [] => [x]
  | y :: rest =>
      if (0 <? sortCompare x y)%Z then y :: sortInsert x rest
      else x :: l
  end.

Definition Array_sort (l : list A) : list A := fold_right sortInsert [] l.

End ArraySort.

(** ** The pipeline (lines 46-86) *)

Section Pipeline.
Context {rt : Runtime}.

(** [LandingPageSchema.parse(rawData)]: the typed value, or a ZodError. *)
Definition LandingPageSchema_parse (rawData : Json) : Result LandingPage :=
  match LandingPageSchema [] (Some rawData) with
  | inr validated => ret validated
  | inl issues => throw (ErrorObject (ZodError_message issues))
  end.

(** Lines 61-69: the products of every section of every present category,
    pushed onto one array (the local [products] of the source, [acc] here). *)
Definition collectProducts (d : Data) : list Product :=
  fold_left
    (fun acc category =>
       match category with
       | None => acc
       | Some category =>
           fold_left (fun acc section => (acc ++ products section)%list)
             (mosaic category) acc
       end)
    [books d; games d; software d] [].

(** The comparator of lines 72-76: [dateB - dateA], [NaN] when a date does
    not parse. Both times are integers, so the sign of the double is the
    sign of the integer difference. *)
Definition compareByStart (a b : Product) : option Z :=
  match Date_getTime (start_date_datetime a),
        Date_getTime (start_date_datetime b) with
  | Some dateA, Some dateB => Some (dateB - dateA)%Z
  | _, _ => None
  end.

(** Lines 61-78, from the validated payload on. *)
Definition flattenAndSort (validated : LandingPage) : list Product :=
  Array_sort compareByStart (collectProducts (data validated)).

Definition fetchBundles (upstream : FetchOutcome) : Result (list Product) :=
  response <- fetch upstream ;;
  if negb (ok response) then
    throw (ErrorObject
      ("Failed to fetch Humble Bundle page: " ++ decimal (status response)))
  else
    let html := body response in
    match matchScriptTag html with
    | None =>
        throw (ErrorObject "Could not find landingPage-json-data script tag")
    | Some EmptyString =>
        throw (ErrorObject "Could not find landingPage-json-data script tag")
    | Some raw =>
        rawData <- match JSON_parse raw with
                   | inl message => throw (ErrorObject message)
                   | inr value => ret value
                   end ;;
        validated <- LandingPageSchema_parse rawData ;;
        ret (flattenAndSort validated)
    end.

Definition filterByCategory (products : list Product) (category : Selector)
    : list Product :=
  filter (fun p => String.eqb (tile_stamp p) (selectorText category)) products.

(** ** HTTP handlers (lines 275-367) *)

Definition cacheHeader : string * string :=
  ("Cache-Control", "public, max-age=3600").

Definition handleHomepage (now : Z) (upstream : FetchOutcome) : Response :=
  match fetchBundles upstream with
  | inr products =>
      let html := generateHomepage now products in
      okResponse html
        [("Content-Type", "text/html; charset=utf-8"); cacheHeader]
  | inl error =>
      mkResponse 500 [("Content-Type", "text/plain")]
        ("Error: " ++ messageOf error)
  end.

(** [category.charAt(0).toUpperCase() + category.slice(1)] *)
Definition capitalized (s : string) : string :=
  match s with
  | EmptyString => EmptyString
  | String c rest => String (upper c) rest
  end.

(** Lines 312-318: the products and the title the feed is rendered from. *)
Definition selectProducts (products : list Product) (category : option Selector)
    : list Product * string :=
  match category with
  | Some category =>
      (filterByCategory products category,
       "Humble Bundle - " ++ capitalized (selectorText category) ++ " Bundles")
  | None => (products, "Humble Bundle - All Bundles")
  end.

Definition handleRssRequest (now : Z) (upstream : FetchOutcome)
    (canonicalUrl : string) (category : option Selector) : Response :=
  match fetchBundles upstream with
  | inr products =>
      let (products, title) := selectProducts products category in
      let rss := generateRss now products title canonicalUrl in
      okResponse rss
        [("Content-Type", "application/rss+xml; charset=utf-8"); cacheHeader]
  | inl error =>
      mkResponse 500 [] ("Error generating RSS feed: " ++ messageOf error)
  end.

(** The [fetch] handler of the server (lines 340-366), for a request whose
    URL has this origin and path. *)
Definition serve (now : Z) (upstream : FetchOutcome) (origin path : string)
    : Response :=
  let canonicalUrl := origin ++ path in
  if path =? "/" then handleHomepage now upstream
  else if path =? "/rss" then handleRssRequest now upstream canonicalUrl None
  else if path =? "/games" then
    handleRssRequest now upstream canonicalUrl (Some SelGames)
  else if path =? "/books" then
    handleRssRequest now upstream canonicalUrl (Some SelBooks)
  else if path =? "/software" then
    handleRssRequest now upstream canonicalUrl (Some SelSoftware)
  else if path =? "/favicon.ico" then
    okResponse favicon [("Content-Type", "image/svg+xml"); cacheHeader]
  else mkResponse 404 [] "Not Found".

End Pipeline.

(** ** Arrays as objects of a heap *)

(** An array is an object: a function that is handed an array is handed a
    reference, and what it does to the array its caller sees. The heap maps
    references to the contents of the arrays. *)
Module Heap.

Definition Ref := nat.

Definition Heap := list (list Product).

Definition read (r : Ref) (h : Heap) : option (list Product) := nth_error h r.

(** A new array: the next free reference, and the heap with the array. *)
Definition alloc (contents : list Product) (h : Heap) : Ref * Heap :=
  (List.length h, (h ++ [contents])%list).

(** [array.filter(pred)]: reads the array, and returns a new one. *)
Definition Array_filter (pred : Product -> bool) (array : Ref) (h : Heap)
    : option (Ref * Heap) :=
  match read array h with
  | Some contents => Some (alloc (filter pred contents) h)
  | None => None
  end.

(** [filterByCategory] (lines 81-86) on references. *)
Definition filterByCategory (products : Ref) (category : Selector) (h : Heap)
    : option (Ref * Heap) :=
  Array_filter (fun p => String.eqb (tile_stamp p) (selectorText category))
    products h.

End Heap.

(** * The vocabulary of the specification *)

(** ** Escaped forms *)

(** The escaped forms as the specification lists them, one character at a
    time: the five XML metacharacters, and the four of the page renderer. *)
Definition xmlEntity (c : ascii) : string :=
  if Ascii.eqb c "&" then "&amp;"
  else if Ascii.eqb c "<" then "&lt;"
  else if Ascii.eqb c ">" then "&gt;"
  else if Ascii.eqb c "034" then "&quot;"
  else if Ascii.eqb c "'" then "&apos;"
  else String c EmptyString.

Definition htmlEntity (c : ascii) : string :=
  if Ascii.eqb c "&" then "&amp;"
  else if Ascii.eqb c "<" then "&lt;"
  else if Ascii.eqb c ">" then "&gt;"
  else if Ascii.eqb c "034" then "&quot;"
  else String c EmptyString.

Definition fiveCharacterEscaped (s : string) : string := substChars xmlEntity s.

Definition fourCharacterEscaped (s : string) : string := substChars htmlEntity s.

(** ** Encounter order and counts *)

(** The products in the order the loops of lines 64-69 meet them, as the
    specification words it: categories in the order books, games, software,
    an absent one contributing nothing; sections in list order; products in
    list order. *)
Definition categoryProducts (c : option CategoryData) : list Product :=
  match c with
  | None => []
  | Some c => flat_map products (mosaic c)
  end.

Definition encounterOrder (d : Data) : list Product :=
  (categoryProducts (books d) ++ categoryProducts (games d)
   ++ categoryProducts (software d))%list.

(** The number of products of a payload. *)
Definition categoryCount (c : option CategoryData) : nat :=
  match c with
  | None => 0
  | Some c => list_sum (map (fun s => List.length (products s)) (mosaic c))
  end.

Definition productCount (d : Data) : nat :=
  categoryCount (books d) + categoryCount (games d) + categoryCount (software d).

(** ** Orders *)

Section SortByTime.
Context {A : Type} (time : A -> TimeValue).

(** The comparator [dateB - dateA] over any way to read a time off an
    element. *)
Definition newestFirst (a b : A) : option Z :=
  match time a, time b with
  | Some dateA, Some dateB => Some (dateB - dateA)%Z
  | _, _ => None
  end.

(** The time of an element whose date parses. *)
Definition timeOf (a : A) : Z :=
  match time a with
  | Some t => t
  | None => 0
  end.

Definition parses (a : A) : Prop := time a <> None.

Definition sameTime (t : Z) (a : A) : bool := (timeOf a =? t)%Z.

(** Newest first: no element is older than one that follows it. *)
Definition Descending (l : list A) : Prop :=
  StronglySorted (fun a b => (timeOf b <= timeOf a)%Z) l.

End SortByTime.

(** [l1] is [l2] with some elements left out, the others in their order. *)
Inductive Subseq {A : Type} : list A -> list A -> Prop :=
| Subseq_nil : Subseq [] []
| Subseq_keep (x : A) (l1 l2 : list A) :
    Subseq l1 l2 -> Subseq (x :: l1) (x :: l2)
| Subseq_drop (x : A) (l1 l2 : list A) :
    Subseq l1 l2 -> Subseq l1 (x :: l2).

(** ** Places in a payload and issues *)

(** The value found in a JSON document by following a path. *)
Fixpoint valueAt (p : Path) (v : Json) : option Json :=
  match p with
  | [] => Some v
  | Key k :: rest =>
      match v with
      | JObject members =>
          match getMember k members with
          | Some v' => valueAt rest v'
          | None => None
          end
      | _ => None
      end
  | Index i :: rest =>
      match v with
      | JArray items =>
          match nth_error items i with
          | Some v' => valueAt rest v'
          | None => None
          end
      | _ => None
      end
  end.

(** Where product [k] of section [i] of a category stands in the payload. *)
Definition productPath (category : string) (i k : nat) : Path :=
  [Key "data"; Key category; Key "mosaic"; Index i; Key "products"; Index k].

Definition categoryKeys : list string := ["books"; "games"; "software"].

Definition requiredFields : list string :=
  ["machine_name"; "tile_name"; "product_url"; "detailed_marketing_blurb";
   "tile_image"; "start_date|datetime"; "end_date|datetime"; "tile_stamp"].

Definition feedPaths : list string := ["/rss"; "/games"; "/books"; "/software"].

(** The issue is one of those a validation reports. *)
Definition Reports {A} (r : Parsed A) (issue : Issue) : Prop :=
  In issue (issuesOf r).

Section Vocabulary.
Context {rt : Runtime}.

(** The start time of a product, as the comparator reads it. *)
Definition startTime (p : Product) : TimeValue :=
  Date_getTime (start_date_datetime p).

(** The schema of each member of a product. *)
Definition fieldSchema (field : string) : Schema string :=
  if field =? "tile_image" then z_url URL_check else z_string.

(** What validation finds wrong with one member of a product: nothing,
    a missing value or one that is no string, or a string that is no URL
    where one is asked for. *)
Definition fieldIssue (field : string) (members : list (string * Json))
    : option IssueCode :=
  match getMember field members with
  | Some (JString s) =>
      if field =? "tile_image" then
        match URL_check s with
        | Some _ => None
        | None => Some (invalid_format "url")
        end
      else None
  | _ => Some (invalid_type "string")
  end.

(** The upstream page was fetched, the script tag found and its text
    parsed: [rawData] is what [JSON.parse] returned. *)
Definition Parses (upstream : FetchOutcome) (rawData : Json) : Prop :=
  exists response raw,
    upstream = Resolves response /\ ok response = true
    /\ matchScriptTag (body response) = Some raw /\ raw <> EmptyString
    /\ JSON_parse raw = inr rawData.

(** ... and the payload passed validation. *)
Definition Delivers (upstream : FetchOutcome) (validated : LandingPage) : Prop :=
  exists rawData,
    Parses upstream rawData
    /\ LandingPageSchema [] (Some rawData) = inr validated.

(** ** The end-to-end example *)

(** The product of the example, with any description and image. *)
Definition sku1 (blurb image : string) : Product :=
  mkProduct "sku1" "Cool & Fun Game" "/games/sku1" blurb image
    "2024-01-01T00:00:00Z" "2024-01-10T00:00:00Z" "games".

(** Its entry in a feed, as the example expects it. *)
Definition sku1Entry (blurb image : string) : string :=
  "    <item>
      <title>" ++ "Cool &amp; Fun Game" ++ "</title>
      <link>" ++ "https://www.humblebundle.com/games/sku1" ++ "</link>
      <description><![CDATA[<img src=" ++ DQ ++ image ++ DQ ++
  " /><br/><br/>" ++ blurb ++ "<br/><br/><strong>Ends:</strong> " ++
  toLocaleDateString (Date_getTime "2024-01-10T00:00:00Z") ++
  "]]></description>
      <pubDate>" ++ toUTCString (Date_getTime "2024-01-01T00:00:00Z") ++
  "</pubDate>
      <guid isPermaLink=" ++ DQ ++ "false" ++ DQ ++ ">" ++ "sku1" ++ "</guid>
      <category>" ++ "games" ++ "</category>
    </item>".

(** The feed of the route [/games] with that one entry. *)
Definition gamesFeedOfExample (now : Z) (origin blurb image : string) : string :=
  "<?xml version=" ++ DQ ++ "1.0" ++ DQ ++ " encoding=" ++ DQ ++ "UTF-8" ++
  DQ ++ "?>
<rss version=" ++ DQ ++ "2.0" ++ DQ ++ " xmlns:atom=" ++ DQ ++
  "http://www.w3.org/2005/Atom" ++ DQ ++ ">
  <channel>
    <title>" ++ "Humble Bundle - Games Bundles" ++ "</title>
    <link>" ++ "https://www.humblebundle.com/bundles" ++ "</link>
    <description>Current bundles available on Humble Bundle</description>
    <language>en-us</language>
    <lastBuildDate>" ++ toUTCString (Some now) ++ "</lastBuildDate>
    <atom:link href=" ++ DQ ++ (origin ++ "/games") ++ DQ ++ " rel=" ++ DQ ++
  "self" ++ DQ ++ " type=" ++ DQ ++ "application/rss+xml" ++ DQ ++ "/>
" ++ sku1Entry blurb image ++ "
  </channel>
</rss>".

(** The feed of the route [/books], with no entry. *)
Definition booksFeedOfExample (now : Z) (origin : string) : string :=
  "<?xml version=" ++ DQ ++ "1.0" ++ DQ ++ " encoding=" ++ DQ ++ "UTF-8" ++
  DQ ++ "?>
<rss version=" ++ DQ ++ "2.0" ++ DQ ++ " xmlns:atom=" ++ DQ ++
  "http://www.w3.org/2005/Atom" ++ DQ ++ ">
  <channel>
    <title>" ++ "Humble Bundle - Books Bundles" ++ "</title>
    <link>" ++ "https://www.humblebundle.com/bundles" ++ "</link>
    <description>Current bundles available on Humble Bundle</description>
    <language>en-us</language>
    <lastBuildDate>" ++ toUTCString (Some now) ++ "</lastBuildDate>
    <atom:link href=" ++ DQ ++ (origin ++ "/books") ++ DQ ++ " rel=" ++ DQ ++
  "self" ++ DQ ++ " type=" ++ DQ ++ "application/rss+xml" ++ DQ ++ "/>
" ++ EmptyString ++ "
  </channel>
</rss>".

End Vocabulary.

(** ** The payload of a typed value *)

(** The JSON value that carries a product, a section, a category and a
    landing page; an absent category has no member. *)
Definition productJson (p : Product) : Json :=
  JObject
    [("machine_name", JString (machine_name p));
     ("tile_name", JString (tile_name p));
     ("product_url", JString (product_url p));
     ("detailed_marketing_blurb", JString (detailed_marketing_blurb p));
     ("tile_image", JString (tile_image p));
     ("start_date|datetime", JString (start_date_datetime p));
     ("end_date|datetime", JString (end_date_datetime p));
     ("tile_stamp", JString (tile_stamp p))].

Definition sectionJson (s : SectionData) : Json :=
  JObject [("products", JArray (map productJson (products s)))].

Definition categoryJson (c : CategoryData) : Json :=
  JObject [("mosaic", JArray (map sectionJson (mosaic c)))].

Definition categoryMember (key : string) (c : option CategoryData)
    : list (string * Json) :=
  match c with
  | Some c => [(key, categoryJson c)]
  | None => []
  end.

Definition landingPageJson (v : LandingPage) : Json :=
  JObject
    [("data",
      JObject (categoryMember "books" (books (data v))
               ++ categoryMember "games" (games (data v))
               ++ categoryMember "software" (software (data v)))%list)].

(** A value that is no object. *)
Definition notAnObject (v : Json) : Prop :=
  match v with
  | JObject _ => False
  | _ => True
  end.

(** ** Two texts, one after the other, in a text *)

Definition OccursInOrder (x y s : string) : Prop :=
  exists pre mid post, s = pre ++ x ++ mid ++ y ++ post.

(** ** Text without tags *)

(** No [<] of the text has a [>] somewhere after it. *)
Fixpoint noTag (text : string) : bool :=
  match text with
  | EmptyString => true
  | String c rest =>
      (if Ascii.eqb c "<" then negb (hasChar ">" rest) else true) && noTag rest
  end.

(** * A runtime to run the program with

    Dates in the form [YYYY-MM-DDTHH:MM:SSZ] on the proleptic Gregorian
    calendar, formatted in UTC; JSON without [\u] escapes; URLs by their
    scheme. The theorems hold for every runtime; this one runs the examples. *)
Module Reference.

Open Scope Z_scope.

Definition digit (c : ascii) : option Z :=
  let n := Z.of_nat (nat_of_ascii c) in
  if (48 <=? n) && (n <=? 57) then Some (n - 48) else None.

(** Reads [n] decimal digits. *)
Fixpoint readDigits (n : nat) (acc : Z) (s : string) : option (Z * string) :=
  match n with
  | O => Some (acc, s)
  | S n' =>
      match s with
      | String c rest =>
          match digit c with
          | Some d => readDigits n' (10 * acc + d) rest
          | None => None
          end
      | EmptyString => None
      end
  end.

Definition expect (c : ascii) (s : string) : option string :=
  match s with
  | String a rest => if Ascii.eqb a c then Some rest else None
  | EmptyString => None
  end.

(** Days from 1970-01-01 to the given day of the civil calendar. *)
Definition daysFromCivil (y m d : Z) : Z :=
  let y := if m <=? 2 then y - 1 else y in
  let era := y / 400 in
  let yoe := y - era * 400 in
  let mp := (m + 9) mod 12 in
  let doy := (153 * mp + 2) / 5 + d - 1 in
  let doe := yoe * 365 + yoe / 4 - yoe / 100 + doy in
  era * 146097 + doe - 719468.

(** The year, month and day of a day count. *)
Definition civilFromDays (z : Z) : Z * Z * Z :=
  let z := z + 719468 in
  let era := z / 146097 in
  let doe := z - era * 146097 in
  let yoe := (doe - doe / 1460 + doe / 36524 - doe / 146096) / 365 in
  let doy := doe - (365 * yoe + yoe / 4 - yoe / 100) in
  let mp := (5 * doy + 2) / 153 in
  let d := doy - (153 * mp + 2) / 5 + 1 in
  let m := if mp <? 10 then mp + 3 else mp - 9 in
  let y := yoe + era * 400 in
  (if m <=? 2 then y + 1 else y, m, d).

Definition isLeap (y : Z) : bool :=
  ((y mod 4 =? 0) && negb (y mod 100 =? 0)) || (y mod 400 =? 0).

Definition daysInMonth (y m : Z) : Z :=
  if m =? 2 then (if isLeap y then 29 else 28)
  else if (m =? 4) || (m =? 6) || (m =? 9) || (m =? 11) then 30
  else 31.

Definition getTime (s : string) : TimeValue :=
  match readDigits 4 0 s with
  | Some (y, s) =>
  match expect "-" s with Some s =>
  match readDigits 2 0 s with Some (m, s) =>
  match expect "-" s with Some s =>
  match readDigits 2 0 s with Some (d, s) =>
  match expect "T" s with Some s =>
  match readDigits 2 0 s with Some (hh, s) =>
  match expect ":" s with Some s =>
  match readDigits 2 0 s with Some (mm, s) =>
  match expect ":" s with Some s =>
  match readDigits 2 0 s with Some (ss, s) =>
  match s with
  | "Z"%string =>
      if (1 <=? m) && (m <=? 12) && (1 <=? d) && (d <=? daysInMonth y m)
         && (hh <? 24) && (mm <? 60) && (ss <? 60)
      then Some (((daysFromCivil y m d * 24 + hh) * 60 + mm) * 60000
                 + ss * 1000)
      else None
  | _ => None
  end
  | None => None end | None => None end | None => None end | None => None end
  | None => None end | None => None end | None => None end | None => None end
  | None => None end | None => None end
  | None => None
  end.

Definition decimalZ (z : Z) : string := decimal (Z.to_N z).

Definition twoDigits (z : Z) : string :=
  if z <? 10 then ("0" ++ decimalZ z)%string else decimalZ z.

Definition fourDigits (z : Z) : string :=
  if z <? 10 then ("000" ++ decimalZ z)%string
  else if z <? 100 then ("00" ++ decimalZ z)%string
  else if z <? 1000 then ("0" ++ decimalZ z)%string
  else decimalZ z.

Definition dayName (w : Z) : string :=
  nth (Z.to_nat w) ["Sun"; "Mon"; "Tue"; "Wed"; "Thu"; "Fri"; "Sat"]%string
    EmptyString.

Definition monthName (m : Z) : string :=
  nth (Z.to_nat (m - 1))
    ["January"; "February"; "March"; "April"; "May"; "June"; "July";
     "August"; "September"; "October"; "November"; "December"]%string
    EmptyString.

Definition utcString (t : TimeValue) : string :=
  match t with
  | None => "Invalid Date"
  | Some ms =>
      let days := ms / 86400000 in
      let rest := ms mod 86400000 in
      let '(y, m, d) := civilFromDays days in
      (dayName ((days + 4) mod 7) ++ ", " ++ twoDigits d ++ " "
       ++ substring 0 3 (monthName m) ++ " " ++ fourDigits y ++ " "
       ++ twoDigits (rest / 3600000) ++ ":"
       ++ twoDigits (rest mod 3600000 / 60000) ++ ":"
       ++ twoDigits (rest mod 60000 / 1000) ++ " GMT")%string
  end.

Definition localeDateString (t : TimeValue) : string :=
  match t with
  | None => "Invalid Date"
  | Some ms =>
      let '(y, m, d) := civilFromDays (ms / 86400000) in
      (monthName m ++ " " ++ decimalZ d ++ ", " ++ decimalZ y)%string
  end.

Close Scope Z_scope.

(** ** JSON *)

Inductive Token :=
| TLBrace | TRBrace | TLBracket | TRBracket | TColon | TComma
| TString (s : string) | TNumber (s : string) | TTrue | TFalse | TNull.

(** The text of a string literal after its opening quote, and what follows
    the closing quote. *)
Fixpoint readString (s : string) : option (string * string) :=
  match s with
  | EmptyString => None
  | String "034" rest => Some (EmptyString, rest)
  | String "\" (String e rest) =>
      let unescaped :=
        match e with
        | "034"%char => Some "034"%char
        | "\"%char => Some "\"%char
        | "/"%char => Some "/"%char
        | "n"%char => Some "010"%char
        | "t"%char => Some "009"%char
        | "r"%char => Some "013"%char
        | _ => None
        end in
      match unescaped, readString rest with
      | Some c, Some (text, after) => Some (String c text, after)
      | _, _ => None
      end
  | String c rest =>
      match readString rest with
      | Some (text, after) => Some (String c text, after)
      | None => None
      end
  end.

Definition isNumberChar (c : ascii) : bool :=
  match digit c with
  | Some _ => true
  | None => hasChar c "-+.eE"
  end.

Fixpoint readNumber (s : string) : string * string :=
  match s with
  | String c rest =>
      if isNumberChar c then
        let (text, after) := readNumber rest in (String c text, after)
      else (EmptyString, s)
  | EmptyString => (EmptyString, EmptyString)
  end.

Definition isSpace (c : ascii) : bool :=
  hasChar c (String " " (String "010" (String "009" (String "013" EmptyString)))).

Fixpoint lex (fuel : nat) (s : string) : option (list Token) :=
  match fuel with
  | O => None
  | S fuel =>
      match s with
      | EmptyString => Some []
      | String c rest =>
          let one (t : Token) := option_map (cons t) (lex fuel rest) in
          if isSpace c then lex fuel rest
          else if Ascii.eqb c "{" then one TLBrace
          else if Ascii.eqb c "}" then one TRBrace
          else if Ascii.eqb c "[" then one TLBracket
          else if Ascii.eqb c "]" then one TRBracket
          else if Ascii.eqb c ":" then one TColon
          else if Ascii.eqb c "," then one TComma
          else if Ascii.eqb c "034" then
            match readString rest with
            | Some (text, after) =>
                option_map (cons (TString text)) (lex fuel after)
            | None => None
            end
          else if isNumberChar c then
            let (text, after) := readNumber s in
            option_map (cons (TNumber text)) (lex fuel after)
          else
            match stripPrefix "true" s, stripPrefix "false" s,
                  stripPrefix "null" s with
            | Some after, _, _ => option_map (cons TTrue) (lex fuel after)
            | _, Some after, _ => option_map (cons TFalse) (lex fuel after)
            | _, _, Some after => option_map (cons TNull) (lex fuel after)
            | _, _, _ => None
            end
      end
  end.

(** A value and the tokens after it. Of two members with one key the later
    one is found by [getMember], as in an object. *)
Fixpoint parseValue (fuel : nat) (ts : list Token) : option (Json * list Token) :=
  match fuel with
  | O => None
  | S fuel =>
      match ts with
      | TNull :: rest => Some (JNull, rest)
      | TTrue :: rest => Some (JBool true, rest)
      | TFalse :: rest => Some (JBool false, rest)
      | TNumber n :: rest => Some (JNumber n, rest)
      | TString s :: rest => Some (JString s, rest)
      | TLBracket :: TRBracket :: rest => Some (JArray [], rest)
      | TLBracket :: rest => parseElements fuel rest []
      | TLBrace :: TRBrace :: rest => Some (JObject [], rest)
      | TLBrace :: rest => parseMembers fuel rest []
      | _ => None
      end
  end
with parseElements (fuel : nat) (ts : list Token) (acc : list Json)
    : option (Json * list Token) :=
  match fuel with
  | O => None
  | S fuel =>
      match parseValue fuel ts with
      | Some (v, TComma :: rest) => parseElements fuel rest (v :: acc)
      | Some (v, TRBracket :: rest) => Some (JArray (rev (v :: acc)), rest)
      | _ => None
      end
  end
with parseMembers (fuel : nat) (ts : list Token) (acc : list (string * Json))
    : option (Json * list Token) :=
  match fuel with
  | O => None
  | S fuel =>
      match ts with
      | TString k :: TColon :: rest =>
          match parseValue fuel rest with
          | Some (v, TComma :: rest) => parseMembers fuel rest ((k, v) :: acc)
          | Some (v, TRBrace :: rest) => Some (JObject ((k, v) :: acc), rest)
          | _ => None
          end
      | _ => None
      end
  end.

Definition parseJson (text : string) : string + Json :=
  match lex (S (String.length text)) text with
  | Some ts =>
      match parseValue (S (List.length ts)) ts with
      | Some (v, []) => inr v
      | _ => inl "Unexpected token in JSON"
      end
  | None => inl "Unexpected token in JSON"
  end.

(** ** URLs and issues *)

Definition checkUrl (s : string) : option string :=
  match stripPrefix "https://" s, stripPrefix "http://" s with
  | Some (String _ _), _ => Some s
  | _, Some (String _ _) => Some s
  | _, _ => None
  end.

Definition showSeg (seg : PathSeg) : string :=
  match seg with
  | Key k => "/" ++ k
  | Index i => "/" ++ decimal (N.of_nat i)
  end.

Definition showIssue (issue : Issue) : string :=
  match code issue with
  | invalid_type expected => "expected " ++ expected
  | invalid_format format => "invalid " ++ format
  end ++ " at " ++ String.concat EmptyString (map showSeg (path issue)).

Definition zodMessage (issues : list Issue) : string :=
  String.concat "; " (map showIssue issues).

#[export] Instance runtime : Runtime := {|
  Date_getTime := getTime;
  toUTCString := utcString;
  toLocaleDateString := localeDateString;
  JSON_parse := parseJson;
  URL_check := checkUrl;
  ZodError_message := zodMessage
|}.

End Reference.

(** * Sample pages *)

Module Sample.

Import Reference.

Definition quoted (s : string) : string := DQ ++ s ++ DQ.

Definition member (key value : string) : string := quoted key ++ ":" ++ value.

(** The JSON text of a product. *)
Definition productText (p : Product) : string :=
  "{" ++ member "machine_name" (quoted (machine_name p)) ++ ","
  ++ member "tile_name" (quoted (tile_name p)) ++ ","
  ++ member "product_url" (quoted (product_url p)) ++ ","
  ++ member "detailed_marketing_blurb" (quoted (detailed_marketing_blurb p)) ++ ","
  ++ member "tile_image" (quoted (tile_image p)) ++ ","
  ++ member "start_date|datetime" (quoted (start_date_datetime p)) ++ ","
  ++ member "end_date|datetime" (quoted (end_date_datetime p)) ++ ","
  ++ member "tile_stamp" (quoted (tile_stamp p)) ++ "}".

(** The JSON text of a category with one section. *)
Definition categoryText (ps : list Product) : string :=
  "{" ++ member "mosaic"
           ("[{" ++ member "products" ("[" ++ join "," (map productText ps) ++ "]")
            ++ "}]") ++ "}".

(** A page that carries the payload in its script tag. *)
Definition pageOf (payload : string) : Response :=
  mkResponse 200 []
    ("<!DOCTYPE html><html><head><title>Bundles</title>" ++ scriptOpen
     ++ payload ++ scriptClose ++ "</head><body></body></html>").

(** The clock of the samples: 2024-01-06T00:00:00Z. *)
Definition now : Z := 1704499200000.

Definition origin : string := "http://localhost:3000".

(** ** The example of the specification *)

Definition game : Product :=
  sku1 "<p>Two great games</p>" "https://example.com/sku1.png".

Definition gamePayloadText : string :=
  "{" ++ member "data" ("{" ++ member "games" (categoryText [game]) ++ "}") ++ "}".

Definition gamePage : Response := pageOf gamePayloadText.

Definition gameRawData : Json :=
  Eval vm_compute in
    match parseJson gamePayloadText with
    | inr value => value
    | inl _ => JNull
    end.

Definition gamePayload : LandingPage :=
  mkLandingPage (mkData None (Some (mkCategory [mkSection [game]])) None).

(** ** Products of three categories, two of them twice on one day *)

Definition book : Product :=
  mkProduct "book1" "Rust in Depth" "/books/book1" "Ten books"
    "https://example.com/book1.png"
    "2024-01-01T00:00:00Z" "2024-01-16T00:00:00Z" "books".

Definition newGame : Product :=
  mkProduct "game2" "Strategy Classics" "/games/game2" "Six games"
    "https://example.com/game2.png"
    "2024-01-05T00:00:00Z" "2024-01-06T12:00:00Z" "games".

Definition oldGame : Product :=
  mkProduct "game3" "It's Platformers" "/games/game3" "Four games"
    "https://example.com/game3.png"
    "2024-01-01T00:00:00Z" "2024-01-05T00:00:00Z" "games".

Definition tool : Product :=
  mkProduct "soft1" "Audio <Tools>" "/software/soft1" "Two tools"
    "https://example.com/soft1.png"
    "2024-01-05T00:00:00Z" "2024-01-10T04:00:00Z" "software".

Definition shelfPayload : LandingPage :=
  mkLandingPage
    (mkData (Some (mkCategory [mkSection [book]]))
            (Some (mkCategory [mkSection [newGame]; mkSection [oldGame]]))
            (Some (mkCategory [mkSection [tool]]))).

(** ** A product without a title *)

Definition untitledText : string :=
  "{" ++ member "machine_name" (quoted "sku2") ++ ","
  ++ member "product_url" (quoted "/games/sku2") ++ ","
  ++ member "detailed_marketing_blurb" (quoted "No title") ++ ","
  ++ member "tile_image" (quoted "https://example.com/sku2.png") ++ ","
  ++ member "start_date|datetime" (quoted "2024-01-02T00:00:00Z") ++ ","
  ++ member "end_date|datetime" (quoted "2024-01-12T00:00:00Z") ++ ","
  ++ member "tile_stamp" (quoted "games") ++ "}".

Definition untitledPayloadText : string :=
  "{" ++ member "data"
    ("{" ++ member "games"
       ("{" ++ member "mosaic"
          ("[{" ++ member "products"
             ("[" ++ productText game ++ "," ++ untitledText ++ "]") ++ "}]")
        ++ "}") ++ "}") ++ "}".

Definition untitledPage : Response := pageOf untitledPayloadText.

Definition untitledRawData : Json :=
  Eval vm_compute in
    match parseJson untitledPayloadText with
    | inr value => value
    | inl _ => JNull
    end.

Definition untitledMembers : list (string * Json) :=
  Eval vm_compute in
    match valueAt (productPath "games" 0 1) untitledRawData with
    | Some (JObject members) => members
    | _ => []
    end.

(** ** Pages that fail earlier *)

Definition unavailable : Response :=
  mkResponse 503 [] "Service Unavailable".

Definition pageWithoutTag : Response :=
  mkResponse 200 []
    "<!DOCTYPE html><html><head><script>var a = 1;</script></head></html>".

(** ** Further pages *)

(** A page whose script tag is empty, and one whose payload is [{}]. *)
Definition emptyTagPage : Response := pageOf EmptyString.

Definition noDataPage : Response := pageOf "{}".

(** A product under the key [games] whose tag is none of the selectors. *)
Definition comic : Product :=
  mkProduct "comic1" "Graphic Novels" "/books/comic1" "Nine comics"
    "https://example.com/comic1.png"
    "2024-01-03T00:00:00Z" "2024-01-17T00:00:00Z" "comics".

Definition comicPage : Response :=
  pageOf ("{" ++ member "data"
            ("{" ++ member "games" (categoryText [game; comic]) ++ "}") ++ "}").

(** A payload that lists its products newest first. *)
Definition sortedPayload : LandingPage :=
  mkLandingPage
    (mkData None (Some (mkCategory [mkSection [newGame; oldGame]])) None).

End Sample.

(** * Properties *)

(** ** Strings *)

Lemma str_app_nil_r (s : string) : s ++ EmptyString = s.
Proof. induction s as [|a s IH]; simpl; [reflexivity | now rewrite IH]. Qed.

Lemma str_app_assoc (a b c : string) : (a ++ b) ++ c = a ++ (b ++ c).
Proof. induction a as [|x a IH]; simpl; [reflexivity | now rewrite IH]. Qed.

Lemma substChars_app (f : ascii -> string) (a b : string) :
  substChars f (a ++ b) = substChars f a ++ substChars f b.
Proof.
  induction a as [|x a IH]; simpl; [reflexivity|].
  now rewrite IH, str_app_assoc.
Qed.

(** One global replace is a character-wise substitution. *)
Lemma replaceAll_substChars (c : ascii) (r s : string) :
  replaceAll c r s =
  substChars (fun a => if Ascii.eqb a c then r else String a EmptyString) s.
Proof.
  induction s as [|a s IH]; simpl; [reflexivity|].
  rewrite IH. now destruct (Ascii.eqb a c).
Qed.

(** Substituting twice is substituting once with the composed map. *)
Lemma substChars_compose (f g : ascii -> string) (s : string) :
  substChars g (substChars f s) = substChars (fun a => substChars g (f a)) s.
Proof.
  induction s as [|a s IH]; simpl; [reflexivity|].
  now rewrite substChars_app, IH.
Qed.

Lemma substChars_ext (f g : ascii -> string) (s : string) :
  (forall a, f a = g a) -> substChars f s = substChars g s.
Proof.
  intros E. induction s as [|a s IH]; simpl; [reflexivity|].
  now rewrite E, IH.
Qed.

Lemma stripPrefix_app (p s : string) : stripPrefix p (p ++ s) = Some s.
Proof.
  induction p as [|a p IH]; simpl; [reflexivity|].
  now rewrite Ascii.eqb_refl.
Qed.

Lemma stripPrefix_sound (p s r : string) :
  stripPrefix p s = Some r -> s = p ++ r.
Proof.
  revert s. induction p as [|a p IH]; intros s H; simpl in *.
  - now inversion H.
  - destruct s as [|b s]; [discriminate|].
    destruct (Ascii.eqb_spec a b) as [->|]; [|discriminate].
    now rewrite (IH _ H).
Qed.

Lemma afterFirst_here (p s r : string) :
  stripPrefix p s = Some r -> afterFirst p s = Some r.
Proof. intros H. destruct s; simpl; now rewrite H. Qed.

(** [afterFirst] finds an occurrence whenever there is one. *)
Lemma afterFirst_complete (p pre post : string) :
  exists rest, afterFirst p (pre ++ p ++ post) = Some rest.
Proof.
  induction pre as [|a pre IH]; simpl.
  - exists post. apply afterFirst_here, stripPrefix_app.
  - destruct IH as [rest IH].
    destruct (stripPrefix p (String a (pre ++ p ++ post))); eauto.
Qed.

Lemma afterFirst_sound (p s rest : string) :
  afterFirst p s = Some rest -> exists pre, s = pre ++ p ++ rest.
Proof.
  induction s as [|a s IH]; simpl; intros H.
  - destruct (stripPrefix p EmptyString) as [r|] eqn:E; [|discriminate].
    injection H as <-. exists EmptyString. simpl.
    now apply stripPrefix_sound.
  - destruct (stripPrefix p (String a s)) as [r|] eqn:E.
    + injection H as <-. exists EmptyString. simpl.
      now apply stripPrefix_sound.
    + destruct (IH H) as [pre ->]. now exists (String a pre).
Qed.

(** No occurrence, no match. *)
Lemma afterFirst_none (p s : string) :
  ~ Occurs p s -> afterFirst p s = None.
Proof.
  intros N. destruct (afterFirst p s) as [rest|] eqn:E; [|reflexivity].
  exfalso. apply N. destruct (afterFirst_sound _ _ _ E) as [pre ->].
  now exists pre, rest.
Qed.

Lemma beforeFirst_sound (p s pre : string) :
  beforeFirst p s = Some pre -> exists post, s = pre ++ p ++ post.
Proof.
  revert pre. induction s as [|a s IH]; simpl; intros pre H.
  - destruct (stripPrefix p EmptyString) as [r|] eqn:E; [|discriminate].
    injection H as <-. exists r. simpl. now apply stripPrefix_sound.
  - destruct (stripPrefix p (String a s)) as [r|] eqn:E.
    + injection H as <-. exists r. simpl. now apply stripPrefix_sound.
    + destruct (beforeFirst p s) as [pre'|] eqn:B; [|discriminate].
      injection H as <-. destruct (IH _ eq_refl) as [post ->].
      now exists post.
Qed.

Lemma Occurs_afterFirst (p s : string) :
  afterFirst p s = None -> ~ Occurs p s.
Proof.
  intros H (pre & post & ->).
  destruct (afterFirst_complete p pre post) as [rest E]. congruence.
Qed.

(** What the match returns stands in the page between the opening and
    the closing tag. *)
Lemma matchScriptTag_sound (html inner : string) :
  matchScriptTag html = Some inner ->
  exists pre post, html = pre ++ scriptOpen ++ inner ++ scriptClose ++ post.
Proof.
  unfold matchScriptTag. intros H.
  destruct (afterFirst scriptOpen html) as [rest|] eqn:E; [|discriminate].
  destruct (afterFirst_sound _ _ _ E) as [pre ->].
  destruct (beforeFirst_sound _ _ _ H) as [post ->].
  now exists pre, post.
Qed.

Lemma hasChar_app (c : ascii) (a b : string) :
  hasChar c (a ++ b) = hasChar c a || hasChar c b.
Proof.
  induction a as [|x a IH]; simpl; [reflexivity|].
  now rewrite IH, orb_assoc.
Qed.

Lemma Occurs_middle (x pre post : string) : Occurs x (pre ++ x ++ post).
Proof. now exists pre, post. Qed.

Lemma Occurs_app_r (x a s : string) : Occurs x s -> Occurs x (a ++ s).
Proof.
  intros (pre & post & ->). exists (a ++ pre), post.
  now rewrite str_app_assoc.
Qed.

Lemma Occurs_app_l (x s b : string) : Occurs x s -> Occurs x (s ++ b).
Proof.
  intros (pre & post & ->). exists pre, (post ++ b).
  now rewrite !str_app_assoc.
Qed.

Lemma Occurs_join (sep : string) (before after : list string) (x : string) :
  Occurs x (join sep (before ++ x :: after)).
Proof.
  induction before as [|b before IH]; simpl.
  - destruct after as [|a after].
    + exists EmptyString, EmptyString. simpl. now rewrite str_app_nil_r.
    + exists EmptyString, (sep ++ join sep (a :: after)). reflexivity.
  - destruct (before ++ x :: after)%list eqn:E.
    + now destruct before.
    + now apply Occurs_app_r, Occurs_app_r.
Qed.

(** Finds an occurrence that a chain of appends shows. *)
Ltac find_occurrence H :=
  lazymatch goal with
  | |- Occurs _ (_ ++ _) =>
      first [ apply Occurs_app_l; exact H
            | apply Occurs_app_r; find_occurrence H ]
  end.

(** ** Escaping *)

Ltac each_character a :=
  destruct a as [[] [] [] [] [] [] [] []]; reflexivity.

(** The five replaces in sequence replace each character once: an [&] that
    a replace writes is never read again by the replace of [&], which ran
    first. *)
Lemma escapeXml_fiveCharacterEscaped (s : string) :
  escapeXml s = fiveCharacterEscaped s.
Proof.
  unfold escapeXml, fiveCharacterEscaped.
  rewrite !replaceAll_substChars, !substChars_compose.
  apply substChars_ext. intros a. each_character a.
Qed.

Lemma escapeHtml_fourCharacterEscaped (s : string) :
  escapeHtml s = fourCharacterEscaped s.
Proof.
  unfold escapeHtml, fourCharacterEscaped.
  rewrite !replaceAll_substChars, !substChars_compose.
  apply substChars_ext. intros a. each_character a.
Qed.

(** X1. No [<], [>], double quote or apostrophe is left in XML-escaped
    text. *)
Lemma escapeXml_leaves_no_metacharacter (s : string) :
  hasChar "<" (escapeXml s) = false /\
  hasChar ">" (escapeXml s) = false /\
  hasChar "034" (escapeXml s) = false /\
  hasChar "'" (escapeXml s) = false.
Proof.
  rewrite escapeXml_fiveCharacterEscaped. unfold fiveCharacterEscaped.
  induction s as [|a s (IH1 & IH2 & IH3 & IH4)]; simpl; [now repeat split|].
  rewrite !hasChar_app, IH1, IH2, IH3, IH4, !orb_false_r.
  repeat split; each_character a.
Qed.

Example stripHtml_deletes_tags :
  stripHtml "<p>Two <b>great</b> games</p>" = "Two great games"
  /\ stripHtml "a < b" = "a < b"
  /\ stripHtml "1 < 2 > 1 <" = "1  1 <".
Proof. repeat split. Qed.

(** The page renderer leaves an apostrophe as it is; the feed renderer does
    not. *)
Lemma apostrophe_asymmetry :
  escapeHtml "It's" = "It's" /\ escapeXml "It's" = "It&apos;s".
Proof. split; reflexivity. Qed.

Section RendererFacts.
Context {rt : Runtime}.

(** C4. In an entry of the feed, the title, link, guid and category hold
    the five-character-escaped text of the product's title, absolute link,
    machine name and category tag, and the CDATA section holds the image
    URL and the long description as they are; every product handed to the
    feed renderer has its entry in the document. *)
Theorem feed_entry_escapes_five_characters (product : Product) :
  rssItem product =
    "    <item>" ++ NL ++
    "      <title>" ++ fiveCharacterEscaped (tile_name product) ++ "</title>" ++
      NL ++
    "      <link>" ++
      fiveCharacterEscaped ("https://www.humblebundle.com" ++ product_url product) ++
      "</link>" ++ NL ++
    "      <description><![CDATA[<img src=" ++ DQ ++ tile_image product ++ DQ ++
      " /><br/><br/>" ++ detailed_marketing_blurb product ++
      "<br/><br/><strong>Ends:</strong> " ++
      toLocaleDateString (Date_getTime (end_date_datetime product)) ++
      "]]></description>" ++ NL ++
    "      <pubDate>" ++
      toUTCString (Date_getTime (start_date_datetime product)) ++
      "</pubDate>" ++ NL ++
    "      <guid isPermaLink=" ++ DQ ++ "false" ++ DQ ++ ">" ++
      fiveCharacterEscaped (machine_name product) ++ "</guid>" ++ NL ++
    "      <category>" ++ fiveCharacterEscaped (tile_stamp product) ++
      "</category>" ++ NL ++
    "    </item>"
  /\ forall (now : Z) (before after : list Product) (title canonicalUrl : string),
       Occurs (rssItem product)
         (generateRss now (before ++ product :: after) title canonicalUrl).
Proof.
  split.
  - unfold rssItem. rewrite !escapeXml_fiveCharacterEscaped. reflexivity.
  - intros now before after title canonicalUrl.
    pose proof (Occurs_join NL (map rssItem before) (map rssItem after)
                  (rssItem product)) as H.
    change (map rssItem before ++ rssItem product :: map rssItem after)%list
      with (map rssItem before ++ map rssItem (product :: after))%list in H.
    rewrite <- map_app in H.
    unfold generateRss. find_occurrence H.
Qed.

(** Every product has its entry on the page, whatever its tier. *)
Lemma homepage_renders_every_product (now : Z) (before after : list Product)
    (p : Product) :
  Occurs (homepageEntry now p) (generateHomepage now (before ++ p :: after)).
Proof.
  pose proof (Occurs_join NL (map (homepageEntry now) before)
                (map (homepageEntry now) after) (homepageEntry now p)) as H.
  change (map (homepageEntry now) before
          ++ homepageEntry now p :: map (homepageEntry now) after)%list
    with (map (homepageEntry now) before
          ++ map (homepageEntry now) (p :: after))%list in H.
  rewrite <- map_app in H.
  unfold generateHomepage. find_occurrence H.
Qed.

(** C8. In an entry of the page, the category tag, the link and the title
    (twice) hold the four-character-escaped text; every product handed to
    the page renderer has that entry in the document it returns; an
    apostrophe is a character like any other there, while the feed renderer
    replaces it. *)
Theorem page_entry_escapes_four_characters (now : Z) (p : Product) :
  homepageEntry now p =
    "      <li><span class=" ++ DQ ++ "entry " ++ statusClassAt now p ++ DQ ++
    "><span class=" ++ DQ ++ "cat" ++ DQ ++ ">[" ++
    fourCharacterEscaped (tile_stamp p) ++ "]</span> <a href=" ++ DQ ++
    fourCharacterEscaped ("https://www.humblebundle.com" ++ product_url p) ++
    DQ ++ " title=" ++ DQ ++ fourCharacterEscaped (tile_name p) ++
    DQ ++ " target=" ++ DQ ++ "_blank" ++ DQ ++ " rel=" ++ DQ ++
    "noopener noreferrer nofollow" ++ DQ ++ ">" ++
    fourCharacterEscaped (tile_name p) ++ "</a></span></li>"
  /\ (forall before after : list Product,
        Occurs (homepageEntry now p)
          (generateHomepage now (before ++ p :: after)))
  /\ (forall a b : string,
        escapeHtml (a ++ "'" ++ b) = escapeHtml a ++ "'" ++ escapeHtml b)
  /\ (forall a b : string,
        escapeXml (a ++ "'" ++ b) = escapeXml a ++ "&apos;" ++ escapeXml b).
Proof.
  split; [|split; [|split]].
  - unfold homepageEntry. rewrite !escapeHtml_fourCharacterEscaped. reflexivity.
  - intros before after. apply homepage_renders_every_product.
  - intros a b. rewrite !escapeHtml_fourCharacterEscaped.
    unfold fourCharacterEscaped. now rewrite substChars_app.
  - intros a b. rewrite !escapeXml_fiveCharacterEscaped.
    unfold fiveCharacterEscaped. now rewrite substChars_app.
Qed.

End RendererFacts.

(** ** Urgency tiers *)

(** The tier in terms of the milliseconds left, [t - now]. *)
Lemma statusClassOf_millis (t now : Z) :
  statusClassOf (hoursLeftOf (Some t) now) =
    if ((t - now <=? 24 * 3600000) && (0 <? t - now))%Z then "urgent"
    else if (t - now <=? 168 * 3600000)%Z then "soon"
    else "ok".
Proof.
  unfold statusClassOf, hoursLeftOf, num_le, num_gt, num, Qle_bool. simpl.
  rewrite !Z.mul_1_r, <- Z.ltb_antisym. reflexivity.
Qed.

(** A product whose end date does not parse is in the tier [ok]. *)
Lemma statusClassOf_NaN (now : Z) :
  statusClassOf (hoursLeftOf None now) = "ok".
Proof. reflexivity. Qed.

(** With time left, the tiers are the three of the page: up to 24 hours
    [urgent], up to 168 hours [soon], beyond that [ok]. *)
Lemma statusClassOf_time_left (t now : Z) :
  (0 < t - now)%Z ->
  statusClassOf (hoursLeftOf (Some t) now) =
    if (t - now <=? 24 * 3600000)%Z then "urgent"
    else if (t - now <=? 168 * 3600000)%Z then "soon"
    else "ok".
Proof.
  intros H. rewrite statusClassOf_millis.
  destruct (Z.ltb_spec 0 (t - now)); [|lia].
  now rewrite andb_true_r.
Qed.

(** A product that has ended (no time left) falls through the first test,
    which asks for time left, and is caught by the second, which has no
    such bound. *)
Lemma statusClassOf_ended (t now : Z) :
  (t <= now)%Z ->
  statusClassOf (hoursLeftOf (Some t) now) = "soon".
Proof.
  intros H. rewrite statusClassOf_millis.
  destruct (Z.ltb_spec 0 (t - now)); [lia|].
  rewrite andb_false_r.
  destruct (Z.leb_spec (t - now) (168 * 3600000)); [reflexivity | lia].
Qed.

Section TierFacts.
Context {rt : Runtime}.

(** C1. A product whose end time is not after [now] has its entry on the
    page, and its tier there is [soon], not [ok]. *)
Theorem ended_item_is_soon (now t : Z) (p : Product)
    (before after : list Product) :
  Date_getTime (end_date_datetime p) = Some t ->
  (t <= now)%Z ->
  statusClassAt now p = "soon"
  /\ Occurs (homepageEntry now p) (generateHomepage now (before ++ p :: after)).
Proof.
  intros Hend Hle. split.
  - unfold statusClassAt. rewrite Hend. now apply statusClassOf_ended.
  - apply homepage_renders_every_product.
Qed.

(** With time left, the tier of a product is as the page documents it. *)
Lemma statusClassAt_time_left (now t : Z) (p : Product) :
  Date_getTime (end_date_datetime p) = Some t ->
  (0 < t - now)%Z ->
  statusClassAt now p =
    if (t - now <=? 24 * 3600000)%Z then "urgent"
    else if (t - now <=? 168 * 3600000)%Z then "soon"
    else "ok".
Proof.
  intros Hend Hpos. unfold statusClassAt. rewrite Hend.
  now apply statusClassOf_time_left.
Qed.

End TierFacts.

(** ** Sorting by time, newest first *)

Section SortFacts.
Context {A : Type} (time : A -> TimeValue).

#[local] Abbreviation newestFirst := (newestFirst time).
#[local] Abbreviation timeOf := (timeOf time).
#[local] Abbreviation parses := (parses time).
#[local] Abbreviation sameTime := (sameTime time).
#[local] Abbreviation Descending := (Descending time).

Lemma sortCompare_newestFirst (x y : A) :
  parses x -> parses y ->
  sortCompare newestFirst x y = (timeOf y - timeOf x)%Z.
Proof.
  unfold parses, sortCompare, newestFirst, timeOf. intros Hx Hy.
  destruct (time x), (time y); congruence.
Qed.

Lemma sortInsert_Permutation (cmp : A -> A -> option Z) (x : A) (l : list A) :
  Permutation (sortInsert cmp x l) (x :: l).
Proof.
  induction l as [|y l IH]; simpl; [reflexivity|].
  destruct (0 <? sortCompare cmp x y)%Z; [|reflexivity].
  rewrite IH. apply perm_swap.
Qed.

(** Sorting rearranges: nothing is lost, added or repeated, whatever the
    comparator answers. *)
Lemma Array_sort_Permutation (cmp : A -> A -> option Z) (l : list A) :
  Permutation (Array_sort cmp l) l.
Proof.
  induction l as [|x l IH]; simpl; [reflexivity|].
  rewrite sortInsert_Permutation. now apply perm_skip.
Qed.

Lemma Array_sort_Forall (cmp : A -> A -> option Z) (P : A -> Prop) (l : list A) :
  Forall P l -> Forall P (Array_sort cmp l).
Proof.
  intros H. rewrite Forall_forall in *. intros a Ha. apply H.
  eapply Permutation_in; [apply Array_sort_Permutation | exact Ha].
Qed.

Lemma sortInsert_Descending (x : A) (l : list A) :
  parses x -> Forall parses l -> Descending l ->
  Descending (sortInsert newestFirst x l).
Proof.
  intros Hx Hl Hs. induction l as [|y l IH]; simpl.
  - repeat constructor.
  - inversion Hl as [|? ? Hy Hl']; subst.
    apply StronglySorted_inv in Hs. destruct Hs as [Hs Hy_l].
    rewrite (sortCompare_newestFirst x y Hx Hy).
    destruct (Z.ltb_spec 0 (timeOf y - timeOf x)) as [Hlt|Hge].
    + constructor; [now apply IH|].
      rewrite Forall_forall. intros a Ha.
      apply (Permutation_in _ (sortInsert_Permutation newestFirst x l)) in Ha.
      destruct Ha as [<-|Ha]; [lia|].
      rewrite Forall_forall in Hy_l. now apply Hy_l.
    + constructor; [now constructor|].
      constructor; [lia|].
      rewrite Forall_forall in *. intros a Ha.
      specialize (Hy_l a Ha). simpl in Hy_l. lia.
Qed.

Lemma Array_sort_Descending (l : list A) :
  Forall parses l -> Descending (Array_sort newestFirst l).
Proof.
  induction l as [|x l IH]; intros H; simpl; [constructor|].
  inversion H; subst.
  change (Array_sort newestFirst (x :: l))
    with (sortInsert newestFirst x (Array_sort newestFirst l)).
  apply sortInsert_Descending; auto using Array_sort_Forall.
Qed.

(** An element moves only behind elements of another time. *)
Lemma sortInsert_sameTime (t : Z) (x : A) (l : list A) :
  parses x -> Forall parses l ->
  filter (sameTime t) (sortInsert newestFirst x l)
  = filter (sameTime t) (x :: l).
Proof.
  intros Hx Hl. induction l as [|y l IH]; [reflexivity|].
  inversion Hl as [|? ? Hy Hl']; subst. cbn [sortInsert].
  rewrite (sortCompare_newestFirst x y Hx Hy).
  destruct (Z.ltb_spec 0 (timeOf y - timeOf x)) as [Hlt|Hge]; [|reflexivity].
  cbn [filter]. rewrite (IH Hl'). cbn [filter]. unfold sameTime.
  destruct (Z.eqb_spec (timeOf x) t), (Z.eqb_spec (timeOf y) t);
    try reflexivity; lia.
Qed.

(** Stability: the elements of one time keep the order they had. *)
Lemma Array_sort_stable (t : Z) (l : list A) :
  Forall parses l ->
  filter (sameTime t) (Array_sort newestFirst l) = filter (sameTime t) l.
Proof.
  induction l as [|x l IH]; intros H; [reflexivity|].
  inversion H; subst.
  change (Array_sort newestFirst (x :: l))
    with (sortInsert newestFirst x (Array_sort newestFirst l)).
  rewrite sortInsert_sameTime by auto using Array_sort_Forall.
  cbn [filter]. now rewrite IH.
Qed.

Lemma sameTime_head (a : A) (l : list A) :
  filter (sameTime (timeOf a)) (a :: l) = a :: filter (sameTime (timeOf a)) l.
Proof. cbn [filter]. unfold sameTime. now rewrite Z.eqb_refl. Qed.

Lemma sameTime_other (t : Z) (a : A) (l : list A) :
  timeOf a <> t -> filter (sameTime t) (a :: l) = filter (sameTime t) l.
Proof.
  intros H. cbn [filter]. unfold sameTime.
  now destruct (Z.eqb_spec (timeOf a) t).
Qed.

Lemma sameTime_In (t : Z) (a : A) (l : list A) :
  In a (filter (sameTime t) l) -> In a l.
Proof. intros H. now apply filter_In in H. Qed.

(** A list that is newest first and keeps the elements of each time in
    their order is determined: every stable sort returns the same one. *)
Lemma stable_sort_unique (l1 l2 : list A) :
  Descending l1 -> Descending l2 ->
  (forall t, filter (sameTime t) l1 = filter (sameTime t) l2) ->
  l1 = l2.
Proof.
  revert l2. induction l1 as [|x l1 IH]; intros l2 S1 S2 E.
  - destruct l2 as [|y l2]; [reflexivity|].
    specialize (E (timeOf y)). rewrite sameTime_head in E. discriminate.
  - apply StronglySorted_inv in S1. destruct S1 as [S1 Hx].
    rewrite Forall_forall in Hx.
    destruct l2 as [|y l2].
    + specialize (E (timeOf x)). rewrite sameTime_head in E. discriminate.
    + apply StronglySorted_inv in S2. destruct S2 as [S2 Hy].
      rewrite Forall_forall in Hy.
      destruct (Z.eq_dec (timeOf y) (timeOf x)) as [Eyx|Nyx].
      * pose proof (E (timeOf x)) as Ex.
        rewrite sameTime_head, <- Eyx, sameTime_head, Eyx in Ex.
        injection Ex as -> Ex. f_equal. apply IH; auto.
        intros t. destruct (Z.eq_dec (timeOf y) t) as [<-|Nt].
        -- exact Ex.
        -- specialize (E t). now rewrite !sameTime_other in E by congruence.
      * exfalso.
        pose proof (E (timeOf x)) as Ex. pose proof (E (timeOf y)) as Ey.
        rewrite sameTime_head, (sameTime_other _ y) in Ex by exact Nyx.
        rewrite sameTime_head, (sameTime_other _ x) in Ey by congruence.
        assert (In x l2) as Hx2
          by (apply (sameTime_In (timeOf x)); rewrite <- Ex; now left).
        assert (In y l1) as Hy1
          by (apply (sameTime_In (timeOf y)); rewrite Ey; now left).
        specialize (Hx _ Hy1). specialize (Hy _ Hx2). simpl in *. lia.
Qed.



End SortFacts.

Lemma Array_sort_singleton {A} (cmp : A -> A -> option Z) (x : A) :
  Array_sort cmp [x] = [x].
Proof. reflexivity. Qed.

(** ** Subsequences and the heap *)

Lemma filter_Subseq {A : Type} (f : A -> bool) (l : list A) :
  Subseq (filter f l) l.
Proof.
  induction l as [|x l IH]; simpl; [constructor|].
  destruct (f x); now constructor.
Qed.

Lemma Subseq_In {A : Type} (l1 l2 : list A) (a : A) :
  Subseq l1 l2 -> In a l1 -> In a l2.
Proof.
  induction 1 as [|x l1 l2 _ IH|x l1 l2 _ IH]; simpl; intuition.
Qed.

(** A new array leaves the arrays that were there as they were. *)
Lemma read_alloc_old (r : Heap.Ref) (contents : list Product) (h : Heap.Heap) :
  (r < List.length h)%nat ->
  Heap.read r (snd (Heap.alloc contents h)) = Heap.read r h.
Proof.
  intros H. unfold Heap.read, Heap.alloc. simpl. now rewrite nth_error_app1.
Qed.

Lemma read_alloc_new (contents : list Product) (h : Heap.Heap) :
  Heap.read (fst (Heap.alloc contents h)) (snd (Heap.alloc contents h))
  = Some contents.
Proof.
  unfold Heap.read, Heap.alloc. simpl.
  rewrite nth_error_app2, Nat.sub_diag by lia. reflexivity.
Qed.

(** ** Validation *)

Lemma issuesOf_pmap {A B} (f : A -> B) (r : Parsed A) :
  issuesOf (pmap f r) = issuesOf r.
Proof. now destruct r. Qed.

Lemma issuesOf_pap {A B} (f : Parsed (A -> B)) (x : Parsed A) :
  issuesOf (pap f x) = (issuesOf f ++ issuesOf x)%list.
Proof. destruct f, x; simpl; now rewrite ?app_nil_r. Qed.

(** A validation that reports an issue fails, with that issue among its
    issues. *)
Lemma Reports_fails {A} (r : Parsed A) (issue : Issue) :
  Reports r issue -> exists issues, r = inl issues /\ In issue issues.
Proof. destruct r as [issues|a]; [now exists issues | intros []]. Qed.

Lemma withKey_reports_member {A B} (sh : Shape (A -> B))
    (member : string * Schema A) (p : Path) (members : list (string * Json))
    (issue : Issue) :
  Reports (snd member (p ++ [Key (fst member)])%list
             (getMember (fst member) members)) issue ->
  Reports (withKey sh member p members) issue.
Proof.
  unfold Reports, withKey. rewrite issuesOf_pap, in_app_iff. now right.
Qed.

Lemma withKey_reports_earlier {A B} (sh : Shape (A -> B))
    (member : string * Schema A) (p : Path) (members : list (string * Json))
    (issue : Issue) :
  Reports (sh p members) issue ->
  Reports (withKey sh member p members) issue.
Proof.
  unfold Reports, withKey. rewrite issuesOf_pap, in_app_iff. now left.
Qed.

Lemma parseItems_reports {A} (element : Schema A) (p : Path) (issue : Issue)
    (items : list Json) (i k : nat) (x : Json) :
  nth_error items k = Some x ->
  Reports (element (p ++ [Index (i + k)])%list (Some x)) issue ->
  Reports (parseItems element p i items) issue.
Proof.
  revert i k. induction items as [|y items IH]; intros i k Hk Hx.
  - now destruct k.
  - unfold Reports. cbn [parseItems].
    rewrite issuesOf_pap, issuesOf_pmap, in_app_iff.
    destruct k as [|k]; simpl in Hk.
    + injection Hk as ->. rewrite Nat.add_0_r in Hx. now left.
    + right. apply (IH (S i) k Hk).
      now rewrite Nat.add_succ_comm.
Qed.

Lemma z_array_reports {A} (element : Schema A) (p : Path) (issue : Issue)
    (items : list Json) (k : nat) (x : Json) :
  nth_error items k = Some x ->
  Reports (element (p ++ [Index k])%list (Some x)) issue ->
  Reports (z_array element p (Some (JArray items))) issue.
Proof. intros Hk Hx. now apply (parseItems_reports element p issue items 0 k x). Qed.

(** Climbs from a member of an object schema to the object. *)
Ltac report_member H :=
  repeat first [ apply withKey_reports_member; exact H
               | apply withKey_reports_earlier ].

Section ValidationFacts.
Context {rt : Runtime}.

Lemma fetchBundles_Parses (upstream : FetchOutcome) (rawData : Json) :
  Parses upstream rawData ->
  fetchBundles upstream
  = (validated <- LandingPageSchema_parse rawData ;; ret (flattenAndSort validated)).
Proof.
  intros (response & raw & -> & Hok & Hmatch & Hraw & Hjson).
  unfold fetchBundles. simpl. rewrite Hok, Hmatch. simpl.
  destruct raw; [congruence|]. now rewrite Hjson.
Qed.

Lemma fetchBundles_Delivers (upstream : FetchOutcome) (validated : LandingPage) :
  Delivers upstream validated ->
  fetchBundles upstream = inr (flattenAndSort validated).
Proof.
  intros (rawData & Hp & Hv). rewrite (fetchBundles_Parses _ _ Hp).
  unfold LandingPageSchema_parse. now rewrite Hv.
Qed.

(** What [fetchBundles] returns, it built from a payload that passed
    validation. *)
Lemma fetchBundles_inversion (upstream : FetchOutcome) (result : list Product) :
  fetchBundles upstream = inr result ->
  exists validated,
    Delivers upstream validated /\ result = flattenAndSort validated.
Proof.
  unfold fetchBundles. destruct upstream as [e|response]; simpl; [discriminate|].
  destruct (ok response) eqn:Hok; simpl; [|discriminate].
  destruct (matchScriptTag (body response)) as [raw|] eqn:Hm; [|discriminate].
  destruct raw as [|c raw]; [discriminate|].
  destruct (JSON_parse (String c raw)) as [msg|rawData] eqn:Hj; simpl;
    [discriminate|].
  unfold LandingPageSchema_parse.
  destruct (LandingPageSchema [] (Some rawData)) as [issues|validated] eqn:Hv;
    simpl; [discriminate|].
  intros H. injection H as <-. exists validated. split; [|reflexivity].
  exists rawData. split; [|exact Hv].
  exists response, (String c raw). repeat split; auto. discriminate.
Qed.

Lemma ProductSchema_reports (field : string) (p : Path)
    (members : list (string * Json)) (issue : Issue) :
  In field requiredFields ->
  Reports (fieldSchema field (p ++ [Key field])%list (getMember field members))
    issue ->
  Reports (ProductSchema p (Some (JObject members))) issue.
Proof.
  intros Hf H. unfold ProductSchema. cbn [z_object].
  simpl in Hf. unfold fieldSchema in H.
  repeat (destruct Hf as [<-|Hf]; [simpl in H; report_member H|]).
  destruct Hf.
Qed.

Lemma fieldIssue_reports (field : string) (p : Path)
    (members : list (string * Json)) (c : IssueCode) :
  fieldIssue field members = Some c ->
  Reports (fieldSchema field p (getMember field members)) (mkIssue c p).
Proof.
  unfold fieldIssue, fieldSchema, Reports.
  destruct (getMember field members) as [[]|]; destruct (field =? "tile_image");
    simpl; try (intros H; injection H as <-; now left); try discriminate.
  destruct (URL_check s); [discriminate|].
  intros H; injection H as <-. now left.
Qed.

Lemma DataSchema_reports (category : string) (p : Path)
    (members : list (string * Json)) (v : Json) (issue : Issue) :
  In category categoryKeys ->
  getMember category members = Some v ->
  Reports (CategorySchema (p ++ [Key category])%list (Some v)) issue ->
  Reports (DataSchema p (Some (JObject members))) issue.
Proof.
  intros Hc Hv H. unfold DataSchema. cbn [z_object].
  assert (Reports (z_optional CategorySchema (p ++ [Key category])%list
                     (getMember category members)) issue) as H'.
  { rewrite Hv. unfold Reports, z_optional. now rewrite issuesOf_pmap. }
  simpl in Hc.
  repeat (destruct Hc as [<-|Hc]; [report_member H'|]).
  destruct Hc.
Qed.

(** A defect of one member of one product is reported at the path of the
    member, and the payload is refused. *)
Lemma LandingPageSchema_reports (rawData : Json) (category field : string)
    (i k : nat) (members : list (string * Json)) (c : IssueCode) :
  In category categoryKeys -> In field requiredFields ->
  valueAt (productPath category i k) rawData = Some (JObject members) ->
  fieldIssue field members = Some c ->
  Reports (LandingPageSchema [] (Some rawData))
    (mkIssue c (productPath category i k ++ [Key field])%list).
Proof.
  intros Hc Hf Hat Hissue. unfold productPath in Hat. cbn [valueAt] in Hat.
  destruct rawData as [| | | | |top]; try discriminate.
  destruct (getMember "data" top) as [[| | | | |dataMembers]|] eqn:Hdata;
    try discriminate.
  destruct (getMember category dataMembers) as [[| | | | |catMembers]|] eqn:Hcat;
    try discriminate.
  destruct (getMember "mosaic" catMembers) as [[| | | |sections|]|] eqn:Hmosaic;
    try discriminate.
  destruct (nth_error sections i) as [[| | | | |secMembers]|] eqn:Hsec;
    try discriminate.
  destruct (getMember "products" secMembers) as [[| | | |prods|]|] eqn:Hprods;
    try discriminate.
  destruct (nth_error prods k) as [product|] eqn:Hprod; try discriminate.
  injection Hat as ->.
  unfold LandingPageSchema. cbn [z_object].
  apply withKey_reports_member. cbn [fst snd]. rewrite Hdata.
  apply (DataSchema_reports category _ _ _ _ Hc Hcat).
  unfold CategorySchema. cbn [z_object].
  apply withKey_reports_member. cbn [fst snd]. rewrite Hmosaic.
  apply (z_array_reports _ _ _ _ i _ Hsec).
  unfold SectionSchema. cbn [z_object].
  apply withKey_reports_member. cbn [fst snd]. rewrite Hprods.
  apply (z_array_reports _ _ _ _ k _ Hprod).
  apply (ProductSchema_reports field _ _ _ Hf).
  now apply fieldIssue_reports.
Qed.

End ValidationFacts.

(** ** Flattening, filtering and their counts *)

Lemma push_sections (acc : list Product) (sections : list SectionData) :
  fold_left (fun acc section => (acc ++ products section)%list) sections acc
  = (acc ++ flat_map products sections)%list.
Proof.
  revert acc. induction sections as [|s sections IH]; intros acc; simpl.
  - now rewrite app_nil_r.
  - now rewrite IH, app_assoc.
Qed.

Lemma length_flat_map_products (sections : list SectionData) :
  List.length (flat_map products sections)
  = list_sum (map (fun s => List.length (products s)) sections).
Proof.
  induction sections as [|s sections IH]; simpl; [reflexivity|].
  now rewrite length_app, IH.
Qed.

Lemma length_encounterOrder (d : Data) :
  List.length (encounterOrder d) = productCount d.
Proof.
  unfold encounterOrder, productCount, categoryProducts, categoryCount.
  rewrite !length_app.
  destruct (books d), (games d), (software d); simpl;
    rewrite ?length_flat_map_products; lia.
Qed.

Section PipelineFacts.
Context {rt : Runtime}.

Lemma compareByStart_newestFirst :
  compareByStart = newestFirst startTime.
Proof. reflexivity. Qed.

(** The loops of lines 64-69 collect the products in encounter order. *)
Lemma collectProducts_encounterOrder (d : Data) :
  collectProducts d = encounterOrder d.
Proof.
  unfold collectProducts, encounterOrder, categoryProducts. simpl.
  destruct (books d), (games d), (software d);
    rewrite ?push_sections, ?app_nil_r, <- ?app_assoc; simpl; reflexivity.
Qed.


Lemma filterByCategory_count (selected : list Product) (category : Selector)
    (p : Product) :
  count_occ Product_eq_dec (filterByCategory selected category) p
  = if string_dec (tile_stamp p) (selectorText category)
    then count_occ Product_eq_dec selected p else 0.
Proof.
  unfold filterByCategory.
  induction selected as [|q selected IH]; simpl.
  - now destruct (string_dec _ _).
  - destruct (String.eqb_spec (tile_stamp q) (selectorText category)) as [E|N];
      simpl; destruct (Product_eq_dec q p) as [->|Nqp]; rewrite IH;
      destruct (string_dec (tile_stamp p) (selectorText category));
      congruence.
Qed.

(** C3. The flattened list has as many products as the payload; a filter
    keeps each product whose tag is the selector, as often as it stood in
    the list, and no other product; without a selector the list is handed
    on as it is; and whatever the filter leaves, the answer is a 200. The
    flattened list is what [fetchBundles] returns for a payload that passed
    validation. *)
Theorem flattened_length_and_category_filter (validated : LandingPage)
    (selected : list Product) (category : Selector) (p : Product) :
  List.length (flattenAndSort validated) = productCount (data validated)
  /\ (forall upstream : FetchOutcome,
        Delivers upstream validated ->
        fetchBundles upstream = inr (flattenAndSort validated))
  /\ (In p (filterByCategory selected category)
      <-> In p selected /\ tile_stamp p = selectorText category)
  /\ count_occ Product_eq_dec (filterByCategory selected category) p
     = (if string_dec (tile_stamp p) (selectorText category)
        then count_occ Product_eq_dec selected p else 0)
  /\ fst (selectProducts selected None) = selected
  /\ forall (now : Z) (upstream : FetchOutcome) (canonicalUrl : string)
       (selector : option Selector),
       fetchBundles upstream = inr selected ->
       status (handleRssRequest now upstream canonicalUrl selector) = 200%N.
Proof.
  split; [|split; [|split; [|split; [|split]]]].
  - unfold flattenAndSort.
    rewrite (Permutation_length (Array_sort_Permutation _ _)).
    now rewrite collectProducts_encounterOrder, length_encounterOrder.
  - intros upstream Hd. now apply fetchBundles_Delivers.
  - unfold filterByCategory. rewrite filter_In, String.eqb_eq. reflexivity.
  - apply filterByCategory_count.
  - reflexivity.
  - intros now upstream canonicalUrl selector H.
    unfold handleRssRequest. rewrite H.
    now destruct (selectProducts selected selector).
Qed.

(** C10. What the filter returns is its input with some products left out
    and the others in their order; it is a new array, and the array that
    was handed in holds what it held. *)
Theorem filterByCategory_subsequence (selected : list Product)
    (category : Selector) (before after : Heap.Heap) :
  Subseq (filterByCategory selected category) selected
  /\ (forall p, In p (filterByCategory selected category) -> In p selected)
  /\ let h := (before ++ selected :: after)%list in
     let input := List.length before in
     exists (output : Heap.Ref) (h' : Heap.Heap),
       Heap.filterByCategory input category h = Some (output, h')
       /\ Heap.read output h' = Some (filterByCategory selected category)
       /\ Heap.read input h' = Some selected
       /\ output <> input
       /\ forall r, (r < List.length h)%nat -> Heap.read r h' = Heap.read r h.
Proof.
  split; [apply filter_Subseq|].
  split; [intros p; apply Subseq_In, filter_Subseq|].
  intros h input.
  assert (Heap.read input h = Some selected) as Hread.
  { unfold Heap.read, h, input.
    rewrite nth_error_app2, Nat.sub_diag by lia. reflexivity. }
  assert (input < List.length h)%nat as Hlt.
  { unfold h, input. rewrite length_app. simpl. lia. }
  unfold Heap.filterByCategory, Heap.Array_filter. rewrite Hread.
  eexists _, _. split; [reflexivity|].
  split; [apply read_alloc_new|].
  split; [rewrite <- Hread; now apply read_alloc_old|].
  split; [simpl; lia|].
  intros r Hr. now apply read_alloc_old.
Qed.

End PipelineFacts.

(** ** Requests *)

Section RequestFacts.
Context {rt : Runtime}.

(** C5. For a payload whose one product is the game [sku1], the route
    [/games] answers with the feed that holds the entry of [sku1] and no
    other (link [https://www.humblebundle.com/games/sku1], guid [sku1],
    category [games], title [Cool &amp; Fun Game]); the route [/books]
    answers with the feed without entries. *)
Theorem single_games_product_feeds (now : Z) (upstream : FetchOutcome)
    (origin blurb image : string) (validated : LandingPage) :
  Delivers upstream validated ->
  encounterOrder (data validated) = [sku1 blurb image] ->
  (status (serve now upstream origin "/games") = 200%N
   /\ body (serve now upstream origin "/games")
      = gamesFeedOfExample now origin blurb image
   /\ map rssItem (filterByCategory (flattenAndSort validated) SelGames)
      = [sku1Entry blurb image])
  /\ (status (serve now upstream origin "/books") = 200%N
      /\ body (serve now upstream origin "/books")
         = booksFeedOfExample now origin
      /\ map rssItem (filterByCategory (flattenAndSort validated) SelBooks)
         = []).
Proof.
  intros Hd He.
  assert (flattenAndSort validated = [sku1 blurb image]) as Hs.
  { unfold flattenAndSort.
    now rewrite collectProducts_encounterOrder, He, Array_sort_singleton. }
  pose proof (fetchBundles_Delivers _ _ Hd) as Hf. rewrite Hs in *.
  unfold serve. cbn [String.eqb Ascii.eqb Bool.eqb].
  unfold handleRssRequest. rewrite Hf.
  repeat split.
Qed.

(** C6. A response from upstream with a status outside 200-299 makes
    [fetchBundles] throw an error whose message ends with the status; a page
    without the opening script tag makes it throw the error of the
    extraction; and every error thrown by [fetchBundles] is answered, on
    each route that fetches, with status 500 and a body that ends with the
    message of the error. *)
Theorem pipeline_failure_is_answered_with_500 (now : Z) (origin : string)
    (response : Response) :
  (ok response = false ->
   fetchBundles (Resolves response)
   = inl (ErrorObject ("Failed to fetch Humble Bundle page: "
                       ++ decimal (status response))))
  /\ (ok response = true -> ~ Occurs scriptOpen (body response) ->
      fetchBundles (Resolves response)
      = inl (ErrorObject "Could not find landingPage-json-data script tag"))
  /\ forall (upstream : FetchOutcome) (error : Thrown),
       fetchBundles upstream = inl error ->
       serve now upstream origin "/"
       = mkResponse 500 [("Content-Type", "text/plain")]
           ("Error: " ++ messageOf error)
       /\ forall path, In path feedPaths ->
            serve now upstream origin path
            = mkResponse 500 [] ("Error generating RSS feed: " ++ messageOf error).
Proof.
  split; [|split].
  - intros Hok. unfold fetchBundles. simpl. now rewrite Hok.
  - intros Hok Hno. unfold fetchBundles. simpl. rewrite Hok. simpl.
    unfold matchScriptTag. now rewrite (afterFirst_none _ _ Hno).
  - intros upstream error Hf. split.
    + unfold serve. cbn [String.eqb Ascii.eqb Bool.eqb].
      unfold handleHomepage. now rewrite Hf.
    + intros path Hp. simpl in Hp.
      repeat (destruct Hp as [<-|Hp];
              [unfold serve; cbn [String.eqb Ascii.eqb Bool.eqb];
               unfold handleRssRequest; now rewrite Hf|]).
      destruct Hp.
Qed.

(** C7. A product with a member that is missing, is no string, or (for the
    image) is no URL makes validation fail with an issue at the path of
    that member; [fetchBundles] then throws, and every route that fetches
    answers with the error alone. A category key that is absent is no
    issue: a payload without categories is valid and has no products. *)
Theorem validation_is_all_or_nothing (now : Z) (origin : string) :
  (forall (upstream : FetchOutcome) (rawData : Json) (category field : string)
          (i k : nat) (members : list (string * Json)) (c : IssueCode),
     Parses upstream rawData ->
     In category categoryKeys -> In field requiredFields ->
     valueAt (productPath category i k) rawData = Some (JObject members) ->
     fieldIssue field members = Some c ->
     exists issues,
       In (mkIssue c (productPath category i k ++ [Key field])%list) issues
       /\ LandingPageSchema [] (Some rawData) = inl issues
       /\ fetchBundles upstream = inl (ErrorObject (ZodError_message issues))
       /\ serve now upstream origin "/"
          = mkResponse 500 [("Content-Type", "text/plain")]
              ("Error: " ++ ZodError_message issues)
       /\ forall path, In path feedPaths ->
            serve now upstream origin path
            = mkResponse 500 []
                ("Error generating RSS feed: " ++ ZodError_message issues))
  /\ (forall p : Path, z_optional CategorySchema p None = inr None)
  /\ (forall dataMembers : list (string * Json),
        getMember "books" dataMembers = None ->
        getMember "games" dataMembers = None ->
        getMember "software" dataMembers = None ->
        LandingPageSchema [] (Some (JObject [("data", JObject dataMembers)]))
        = inr (mkLandingPage (mkData None None None)))
  /\ flattenAndSort (mkLandingPage (mkData None None None)) = [].
Proof.
  split; [|split; [|split]].
  - intros upstream rawData category field i k members c Hp Hc Hf Hat Hi.
    destruct (Reports_fails _ _
                (LandingPageSchema_reports rawData category field i k members c
                   Hc Hf Hat Hi)) as (issues & Hv & Hin).
    exists issues.
    assert (fetchBundles upstream = inl (ErrorObject (ZodError_message issues)))
      as Hfetch.
    { rewrite (fetchBundles_Parses _ _ Hp). unfold LandingPageSchema_parse.
      now rewrite Hv. }
    split; [exact Hin|]. split; [exact Hv|]. split; [exact Hfetch|].
    split.
    + unfold serve. cbn [String.eqb Ascii.eqb Bool.eqb].
      unfold handleHomepage. now rewrite Hfetch.
    + intros path Hpath. simpl in Hpath.
      repeat (destruct Hpath as [<-|Hpath];
              [unfold serve; cbn [String.eqb Ascii.eqb Bool.eqb];
               unfold handleRssRequest; now rewrite Hfetch|]).
      destruct Hpath.
  - reflexivity.
  - intros dataMembers Hb Hg Hs.
    unfold LandingPageSchema, DataSchema, z_object, withKey, shapeOf.
    cbn [getMember fst snd String.eqb Ascii.eqb Bool.eqb].
    now rewrite Hb, Hg, Hs.
  - reflexivity.
Qed.

(** C9. The six paths are matched as they are written. With a pipeline
    that succeeds, [/] answers 200 with the page as HTML and the four feed
    paths answer 200 with a feed as RSS; [/favicon.ico] answers 200 with the
    icon as SVG; all of these carry the cache header. Any other path
    answers 404 with the body [Not Found]. *)
Theorem dispatch_by_exact_path (now : Z) (upstream : FetchOutcome)
    (origin : string) :
  (forall fetched : list Product,
     fetchBundles upstream = inr fetched ->
     serve now upstream origin "/"
     = mkResponse 200
         [("Content-Type", "text/html; charset=utf-8");
          ("Cache-Control", "public, max-age=3600")]
         (generateHomepage now fetched)
     /\ forall path,
          In path feedPaths ->
          let answer := serve now upstream origin path in
          status answer = 200%N
          /\ headers answer
             = [("Content-Type", "application/rss+xml; charset=utf-8");
                ("Cache-Control", "public, max-age=3600")])
  /\ serve now upstream origin "/favicon.ico"
     = mkResponse 200
         [("Content-Type", "image/svg+xml");
          ("Cache-Control", "public, max-age=3600")]
         favicon
  /\ forall path,
       ~ In path ("/" :: "/favicon.ico" :: feedPaths) ->
       serve now upstream origin path = mkResponse 404 [] "Not Found".
Proof.
  split; [|split].
  - intros fetched Hf. split.
    + unfold serve. cbn [String.eqb Ascii.eqb Bool.eqb].
      unfold handleHomepage. now rewrite Hf.
    + intros path Hp. simpl in Hp.
      repeat (destruct Hp as [<-|Hp];
              [unfold serve; cbn [String.eqb Ascii.eqb Bool.eqb];
               unfold handleRssRequest; rewrite Hf; now split|]).
      destruct Hp.
  - reflexivity.
  - intros path Hn. unfold serve.
    repeat match goal with
           | |- context [String.eqb path ?lit] =>
               destruct (String.eqb_spec path lit) as [->|];
               [exfalso; apply Hn; simpl; auto 10|]
           end.
    reflexivity.
Qed.

End RequestFacts.

(** ** The properties on the samples *)

#[local] Existing Instance Reference.runtime.

Lemma gamePage_Delivers :
  Delivers (Resolves Sample.gamePage) Sample.gamePayload.
Proof.
  exists Sample.gameRawData. split; [|vm_compute; reflexivity].
  exists Sample.gamePage, Sample.gamePayloadText.
  repeat split; try (vm_compute; reflexivity). discriminate.
Defined.

Lemma untitledPage_Parses :
  Parses (Resolves Sample.untitledPage) Sample.untitledRawData.
Proof.
  exists Sample.untitledPage, Sample.untitledPayloadText.
  repeat split; try (vm_compute; reflexivity). discriminate.
Defined.

Lemma shelf_dates_parse :
  Forall (parses startTime) (encounterOrder (data Sample.shelfPayload)).
Proof. repeat constructor; intros H; vm_compute in H; discriminate H. Defined.


(** The two products of 5 January come first, the game before the tool as
    in the payload; then the two of 1 January, the book before the game. *)
Example shelf_sorted :
  flattenAndSort Sample.shelfPayload
  = [Sample.newGame; Sample.tool; Sample.book; Sample.oldGame]
  /\ encounterOrder (data Sample.shelfPayload)
     = [Sample.book; Sample.newGame; Sample.oldGame; Sample.tool].
Proof. split; vm_compute; reflexivity. Qed.

Lemma flattened_length_and_category_filter_witness :
  List.length (flattenAndSort Sample.gamePayload) = 1%nat
  /\ status (handleRssRequest Sample.now (Resolves Sample.gamePage)
               (Sample.origin ++ "/books") (Some SelBooks)) = 200%N.
Proof.
  destruct (flattened_length_and_category_filter Sample.gamePayload
              [Sample.game] SelBooks Sample.game)
    as (Hlen & Hfetch & _ & _ & _ & Hok).
  split; [exact Hlen|].
  apply Hok. exact (Hfetch _ gamePage_Delivers).
Defined.

(** The tag is compared as it is written: [Games] is not [games]. *)
Example filter_is_case_sensitive :
  filterByCategory
    [mkProduct "a" "A" "/a" "" "https://a" "" "" "Games"; Sample.newGame]
    SelGames
  = [Sample.newGame].
Proof. reflexivity. Qed.

Lemma single_games_product_feeds_witness :
  (status (serve Sample.now (Resolves Sample.gamePage) Sample.origin "/games")
   = 200%N
   /\ body (serve Sample.now (Resolves Sample.gamePage) Sample.origin "/games")
      = gamesFeedOfExample Sample.now Sample.origin
          "<p>Two great games</p>" "https://example.com/sku1.png"
   /\ map rssItem (filterByCategory (flattenAndSort Sample.gamePayload) SelGames)
      = [sku1Entry "<p>Two great games</p>" "https://example.com/sku1.png"])
  /\ (status (serve Sample.now (Resolves Sample.gamePage) Sample.origin "/books")
      = 200%N
      /\ body (serve Sample.now (Resolves Sample.gamePage) Sample.origin "/books")
         = booksFeedOfExample Sample.now Sample.origin
      /\ map rssItem (filterByCategory (flattenAndSort Sample.gamePayload) SelBooks)
         = []).
Proof.
  apply (single_games_product_feeds Sample.now (Resolves Sample.gamePage)
           Sample.origin "<p>Two great games</p>" "https://example.com/sku1.png"
           Sample.gamePayload).
  - exact gamePage_Delivers.
  - reflexivity.
Defined.

Lemma pipeline_failure_is_answered_with_500_witness :
  fetchBundles (Resolves Sample.unavailable)
  = inl (ErrorObject "Failed to fetch Humble Bundle page: 503")
  /\ fetchBundles (Resolves Sample.pageWithoutTag)
     = inl (ErrorObject "Could not find landingPage-json-data script tag")
  /\ serve Sample.now (Resolves Sample.unavailable) Sample.origin "/"
     = mkResponse 500 [("Content-Type", "text/plain")]
         "Error: Failed to fetch Humble Bundle page: 503"
  /\ serve Sample.now (Resolves Sample.pageWithoutTag) Sample.origin "/games"
     = mkResponse 500 []
         "Error generating RSS feed: Could not find landingPage-json-data script tag".
Proof.
  pose proof (pipeline_failure_is_answered_with_500 Sample.now Sample.origin
                Sample.unavailable) as (H503 & _ & Hserve).
  pose proof (pipeline_failure_is_answered_with_500 Sample.now Sample.origin
                Sample.pageWithoutTag) as (_ & Htag & _).
  specialize (H503 eq_refl).
  assert (~ Occurs scriptOpen (body Sample.pageWithoutTag)) as Hno
    by (apply Occurs_afterFirst; vm_compute; reflexivity).
  specialize (Htag eq_refl Hno).
  split; [exact H503|]. split; [exact Htag|]. split.
  - exact (proj1 (Hserve _ _ H503)).
  - apply (proj2 (Hserve _ _ Htag)). simpl. auto.
Defined.

Lemma validation_is_all_or_nothing_witness :
  exists issues,
    In (mkIssue (invalid_type "string")
          [Key "data"; Key "games"; Key "mosaic"; Index 0; Key "products";
           Index 1; Key "tile_name"]) issues
    /\ LandingPageSchema [] (Some Sample.untitledRawData) = inl issues
    /\ fetchBundles (Resolves Sample.untitledPage)
       = inl (ErrorObject (ZodError_message issues))
    /\ serve Sample.now (Resolves Sample.untitledPage) Sample.origin "/"
       = mkResponse 500 [("Content-Type", "text/plain")]
           ("Error: " ++ ZodError_message issues)
    /\ forall path, In path feedPaths ->
         serve Sample.now (Resolves Sample.untitledPage) Sample.origin path
         = mkResponse 500 []
             ("Error generating RSS feed: " ++ ZodError_message issues).
Proof.
  apply (proj1 (validation_is_all_or_nothing Sample.now Sample.origin)
           (Resolves Sample.untitledPage) Sample.untitledRawData
           "games" "tile_name" 0%nat 1%nat Sample.untitledMembers
           (invalid_type "string")).
  - exact untitledPage_Parses.
  - simpl. auto.
  - simpl. auto.
  - reflexivity.
  - reflexivity.
Defined.

(** The page with the untitled product is answered with the issue alone;
    the valid product beside it is not rendered. *)
Example untitled_page_is_refused :
  serve Sample.now (Resolves Sample.untitledPage) Sample.origin "/rss"
  = mkResponse 500 []
      "Error generating RSS feed: expected string at /data/games/mosaic/0/products/1/tile_name".
Proof. vm_compute. reflexivity. Qed.

Lemma dispatch_by_exact_path_witness :
  serve Sample.now (Resolves Sample.gamePage) Sample.origin "/"
  = mkResponse 200
      [("Content-Type", "text/html; charset=utf-8");
       ("Cache-Control", "public, max-age=3600")]
      (generateHomepage Sample.now [Sample.game])
  /\ serve Sample.now (Resolves Sample.gamePage) Sample.origin "/rss/"
     = mkResponse 404 [] "Not Found".
Proof.
  pose proof (dispatch_by_exact_path Sample.now (Resolves Sample.gamePage)
                Sample.origin) as (Hok & _ & Hnot).
  split.
  - apply (Hok [Sample.game]). vm_compute. reflexivity.
  - apply Hnot. simpl. intuition discriminate.
Defined.

Lemma ended_item_is_soon_witness :
  statusClassAt Sample.now Sample.oldGame = "soon"
  /\ Occurs (homepageEntry Sample.now Sample.oldGame)
       (generateHomepage Sample.now ([Sample.newGame] ++ Sample.oldGame :: [])).
Proof.
  apply (ended_item_is_soon Sample.now 1704412800000 Sample.oldGame
           [Sample.newGame] []).
  - vm_compute. reflexivity.
  - vm_compute. discriminate.
Defined.

(** The tiers of the specification's examples at 2024-01-06T00:00:00Z: an
    end in 12 hours, in 100 hours, in 10 days, and an end a day ago. *)
Example tiers_of_the_samples :
  map (statusClassAt Sample.now)
    [Sample.newGame; Sample.tool; Sample.book; Sample.oldGame]
  = ["urgent"; "soon"; "ok"; "soon"].
Proof. vm_compute. reflexivity. Qed.

(** The product that has ended has its entry on the page, styled [soon]. *)
Example ended_product_on_the_page :
  Occurs
    ("<li><span class=" ++ DQ ++ "entry soon" ++ DQ ++ "><span class=" ++ DQ
     ++ "cat" ++ DQ ++ ">[games]</span> <a href=" ++ DQ
     ++ "https://www.humblebundle.com/games/game3" ++ DQ
     ++ " title=" ++ DQ ++ "It's Platformers" ++ DQ)
    (body (serve Sample.now
             (Resolves (Sample.pageOf
                ("{" ++ Sample.member "data"
                   ("{" ++ Sample.member "games"
                      (Sample.categoryText [Sample.oldGame]) ++ "}") ++ "}")))
             Sample.origin "/")).
Proof.
  unfold Occurs.
  match goal with
  | |- exists pre post, ?b = pre ++ ?x ++ post =>
      let r := eval vm_compute in (afterFirst x b) in
      let q := eval vm_compute in (beforeFirst x b) in
      match r with
      | Some ?post =>
          match q with
          | Some ?pre => exists pre, post
          end
      end
  end.
  vm_compute. reflexivity.
Qed.

(** * Further properties of the code *)

(** ** Extraction: the leftmost opening tag, the nearest closing tag *)

Lemma str_length_app (a b : string) :
  String.length (a ++ b) = (String.length a + String.length b)%nat.
Proof. induction a as [|x a IH]; simpl; [reflexivity | now rewrite IH]. Qed.

(** Two ways to cut one text: the shorter head is a head of the longer. *)
Lemma str_app_split (a b c d : string) :
  a ++ b = c ++ d -> (String.length a <= String.length c)%nat ->
  exists e, c = a ++ e /\ b = e ++ d.
Proof.
  revert c. induction a as [|x a IH]; intros c H L; simpl in *.
  - now exists c.
  - destruct c as [|y c]; simpl in *; [lia|].
    injection H as -> H. destruct (IH c H ltac:(lia)) as (e & -> & ->).
    now exists e.
Qed.

Lemma str_app_inv_head (a b c : string) : a ++ b = a ++ c -> b = c.
Proof. induction a as [|x a IH]; simpl; intros H; [exact H|]. injection H as H. auto. Qed.

Lemma stripPrefix_complete (p s r : string) :
  s = p ++ r -> stripPrefix p s = Some r.
Proof. intros ->. apply stripPrefix_app. Qed.

(** The occurrence that [afterFirst] finds is the leftmost: what follows
    it is at least as long as what follows any other. *)
Lemma afterFirst_leftmost (p s rest : string) :
  afterFirst p s = Some rest ->
  forall pre post, s = pre ++ p ++ post ->
    (String.length post <= String.length rest)%nat.
Proof.
  induction s as [|a s IH]; simpl; intros H pre post E.
  - destruct (stripPrefix p EmptyString) as [r|] eqn:S; [|discriminate].
    injection H as <-. apply stripPrefix_sound in S.
    assert (String.length (pre ++ p ++ post) = String.length (p ++ r)) as L
      by now rewrite <- E, <- S.
    rewrite !str_length_app in L. lia.
  - destruct (stripPrefix p (String a s)) as [r|] eqn:S.
    + injection H as <-. apply stripPrefix_sound in S.
      assert (String.length (pre ++ p ++ post) = String.length (p ++ r)) as L
        by now rewrite <- E, <- S.
      rewrite !str_length_app in L. lia.
    + destruct pre as [|b pre]; simpl in E.
      * rewrite (stripPrefix_complete _ _ _ E) in S. discriminate.
      * injection E as -> E. now apply (IH H pre post).
Qed.

Lemma beforeFirst_complete (p pre post : string) :
  exists pre', beforeFirst p (pre ++ p ++ post) = Some pre'.
Proof.
  induction pre as [|a pre (pre' & IH)]; simpl.
  - exists EmptyString.
    destruct (p ++ post) eqn:E; simpl;
      now rewrite <- ?E, (stripPrefix_app p post).
  - destruct (stripPrefix p (String a (pre ++ p ++ post))); [now eexists|].
    rewrite IH. now eexists.
Qed.

(** The text before the first occurrence is the shortest text before any
    occurrence. *)
Lemma beforeFirst_shortest (p s pre : string) :
  beforeFirst p s = Some pre ->
  forall pre2 post2, s = pre2 ++ p ++ post2 ->
    (String.length pre <= String.length pre2)%nat.
Proof.
  revert pre. induction s as [|a s IH]; simpl; intros pre H pre2 post2 E.
  - destruct (stripPrefix p EmptyString); [|discriminate].
    injection H as <-. simpl. lia.
  - destruct (stripPrefix p (String a s)) as [r|] eqn:S.
    + injection H as <-. simpl. lia.
    + destruct (beforeFirst p s) as [pre'|] eqn:B; [|discriminate].
      injection H as <-. destruct pre2 as [|b pre2]; simpl in E.
      * rewrite (stripPrefix_complete _ _ _ E) in S. discriminate.
      * injection E as -> E. simpl. specialize (IH _ eq_refl _ _ E). lia.
Qed.

Lemma matchScriptTag_complete (pre x post : string) :
  exists inner,
    matchScriptTag (pre ++ scriptOpen ++ x ++ scriptClose ++ post) = Some inner.
Proof.
  unfold matchScriptTag.
  set (html := pre ++ scriptOpen ++ x ++ scriptClose ++ post).
  assert (html = pre ++ scriptOpen ++ x ++ scriptClose ++ post) as E
    by reflexivity.
  clearbody html.
  destruct (afterFirst_complete scriptOpen pre (x ++ scriptClose ++ post))
    as (rest & A).
  rewrite <- E in A. rewrite A.
  destruct (afterFirst_sound _ _ _ A) as (pre' & E').
  pose proof (afterFirst_leftmost _ _ _ A _ _ E) as L.
  assert (String.length pre' <= String.length pre)%nat as L'.
  { assert (String.length (pre' ++ scriptOpen ++ rest)
            = String.length (pre ++ scriptOpen ++ x ++ scriptClose ++ post))
      as EL by now rewrite <- E', <- E.
    rewrite !str_length_app in EL. rewrite !str_length_app in L. lia. }
  rewrite E in E'.
  destruct (str_app_split _ _ _ _ (eq_sym E') L') as (d & -> & E2).
  assert (scriptOpen ++ rest
          = (d ++ scriptOpen ++ x) ++ scriptClose ++ post) as E3
    by (rewrite E2, !str_app_assoc; reflexivity).
  assert (String.length scriptOpen
          <= String.length (d ++ scriptOpen ++ x))%nat as L3
    by (rewrite !str_length_app; lia).
  destruct (str_app_split _ _ _ _ E3 L3) as (e & _ & ->).
  destruct (beforeFirst_complete scriptClose e post) as (inner & B).
  now exists inner.
Qed.

(** X7. The extraction succeeds exactly on a page that has an opening tag and
    a closing tag somewhere after it. *)
Theorem matchScriptTag_succeeds_iff (html : string) :
  (exists inner, matchScriptTag html = Some inner)
  <-> exists pre x post,
        html = pre ++ scriptOpen ++ x ++ scriptClose ++ post.
Proof.
  split.
  - intros (inner & H). destruct (matchScriptTag_sound _ _ H) as (pre & post & E).
    now exists pre, inner, post.
  - intros (pre & x & post & ->). apply matchScriptTag_complete.
Qed.

(** X8. What the extraction returns stands between the leftmost opening tag
    and the nearest closing tag after it. *)
Theorem matchScriptTag_leftmost_shortest (html inner : string) :
  matchScriptTag html = Some inner ->
  exists pre post,
    html = pre ++ scriptOpen ++ inner ++ scriptClose ++ post
    /\ forall pre2 x2 post2,
         html = pre2 ++ scriptOpen ++ x2 ++ scriptClose ++ post2 ->
         (String.length pre <= String.length pre2)%nat
         /\ (String.length pre2 = String.length pre ->
             (String.length inner <= String.length x2)%nat).
Proof.
  unfold matchScriptTag. intros H.
  destruct (afterFirst scriptOpen html) as [rest|] eqn:A; [|discriminate].
  destruct (afterFirst_sound _ _ _ A) as (pre & E).
  destruct (beforeFirst_sound _ _ _ H) as (post & R).
  exists pre, post. split; [now rewrite E, R|].
  intros pre2 x2 post2 E2.
  pose proof (afterFirst_leftmost _ _ _ A _ _ E2) as L.
  assert (String.length pre <= String.length pre2)%nat as Lpre.
  { assert (String.length (pre ++ scriptOpen ++ rest)
            = String.length (pre2 ++ scriptOpen ++ x2 ++ scriptClose ++ post2))
      as EL by now rewrite <- E, <- E2.
    rewrite !str_length_app in EL. rewrite !str_length_app in L. lia. }
  split; [exact Lpre|]. intros Leq.
  rewrite E in E2.
  destruct (str_app_split _ _ _ _ E2 Lpre) as (d & -> & E3).
  rewrite str_length_app in Leq.
  destruct d as [|c d]; [|simpl in Leq; lia].
  change (EmptyString ++ scriptOpen ++ x2 ++ scriptClose ++ post2)
    with (scriptOpen ++ x2 ++ scriptClose ++ post2) in E3.
  apply str_app_inv_head in E3.
  apply (beforeFirst_shortest _ _ _ H x2 post2 E3).
Qed.

Section ExtractionFacts.
Context {rt : Runtime}.

(** X9. A page without a closing tag after an opening tag, and a page whose
    script tag is empty, are answered like a page without the tag. *)
Theorem fetchBundles_needs_a_filled_script_tag (response : Response) :
  ok response = true ->
  (~ (exists pre x post,
        body response = pre ++ scriptOpen ++ x ++ scriptClose ++ post)
   \/ matchScriptTag (body response) = Some EmptyString) ->
  fetchBundles (Resolves response)
  = inl (ErrorObject "Could not find landingPage-json-data script tag").
Proof.
  intros Hok H. unfold fetchBundles. simpl. rewrite Hok. simpl.
  destruct H as [H|H]; [|now rewrite H].
  destruct (matchScriptTag (body response)) as [inner|] eqn:M; [|reflexivity].
  exfalso. apply H.
  destruct (matchScriptTag_sound _ _ M) as (pre & post & E).
  now exists pre, inner, post.
Qed.

End ExtractionFacts.

(** ** Stripping tags (lines 101-103) *)

Lemma stripSpans_no_gt (s : string) :
  hasChar ">" s = false -> snd (stripSpans s) = None.
Proof.
  induction s as [|c s IH]; simpl; [reflexivity|].
  destruct (stripSpans s) as [outside inside]. simpl in *.
  destruct (Ascii.eqb c ">"); simpl; [discriminate|]. exact IH.
Qed.

Lemma stripSpans_to_gt (tag rest : string) :
  hasChar ">" tag = false ->
  snd (stripSpans (tag ++ String ">" rest)) = Some (stripHtml rest).
Proof.
  unfold stripHtml. induction tag as [|c tag IH]; simpl; intros H.
  - now destruct (stripSpans rest).
  - destruct (stripSpans (tag ++ String ">" rest)) as [outside inside].
    simpl in *. destruct (Ascii.eqb c ">"); simpl in *; [discriminate|].
    now apply IH.
Qed.

(** X5. [stripHtml] as the pattern reads: a character that opens no span is
    kept; a span from a [<] to the next [>] is deleted; a [<] with no [>]
    after it is kept. *)
Theorem stripHtml_deletes_spans :
  (forall (c : ascii) (rest : string),
     c <> "<"%char -> stripHtml (String c rest) = String c (stripHtml rest))
  /\ (forall tag rest : string,
        hasChar ">" tag = false ->
        stripHtml (String "<" (tag ++ String ">" rest)) = stripHtml rest)
  /\ (forall rest : string,
        hasChar ">" rest = false ->
        stripHtml (String "<" rest) = String "<" (stripHtml rest)).
Proof.
  split; [|split].
  - intros c rest N. unfold stripHtml. simpl.
    destruct (stripSpans rest) as [outside inside]. simpl.
    now destruct (Ascii.eqb_spec c "<").
  - intros tag rest H. pose proof (stripSpans_to_gt tag rest H) as E.
    unfold stripHtml in *. cbn [stripSpans].
    destruct (stripSpans (tag ++ String ">" rest)) as [outside inside].
    simpl in *. now rewrite E.
  - intros rest H. pose proof (stripSpans_no_gt rest H) as E.
    unfold stripHtml. cbn [stripSpans].
    destruct (stripSpans rest) as [outside inside]. simpl in *. now rewrite E.
Qed.

Lemma stripSpans_noTag (s : string) :
  noTag (fst (stripSpans s)) = true
  /\ (forall after, snd (stripSpans s) = Some after -> noTag after = true)
  /\ (snd (stripSpans s) = None -> hasChar ">" (fst (stripSpans s)) = false).
Proof.
  induction s as [|c s (IH1 & IH2 & IH3)]; simpl.
  - split; [reflexivity | split; [discriminate | reflexivity]].
  - destruct (stripSpans s) as [outside inside]. simpl in *.
    split; [|split].
    + destruct (Ascii.eqb_spec c "<") as [->|N].
      * destruct inside as [after|]; [now apply IH2|].
        simpl. now rewrite (IH3 eq_refl), IH1.
      * simpl. destruct (Ascii.eqb_spec c "<"); [contradiction | exact IH1].
    + destruct (Ascii.eqb c ">"); intros after E.
      * now injection E as <-.
      * now apply IH2.
    + destruct (Ascii.eqb_spec c ">") as [->|Ngt]; [discriminate|].
      intros E. rewrite E.
      destruct (Ascii.eqb_spec c "<") as [->|N]; simpl.
      * now apply IH3.
      * destruct (Ascii.eqb_spec c ">"); [contradiction | now apply IH3].
Qed.

Lemma noTag_fixed (s : string) : noTag s = true -> stripHtml s = s.
Proof.
  unfold stripHtml. induction s as [|c s IH]; simpl; [reflexivity|].
  intros H. apply andb_prop in H. destruct H as [Hc Hs].
  specialize (IH Hs). destruct (stripSpans s) as [outside inside] eqn:E.
  simpl in *. subst outside.
  destruct (Ascii.eqb c "<"); [|reflexivity].
  apply negb_true_iff in Hc. pose proof (stripSpans_no_gt s Hc) as N.
  rewrite E in N. simpl in N. now subst inside.
Qed.

Lemma noTag_after_lt (pre post : string) :
  noTag (pre ++ String "<" post) = true -> hasChar ">" post = false.
Proof.
  induction pre as [|c pre IH]; simpl; intros H;
    apply andb_prop in H; destruct H as [Hc Hs].
  - now apply negb_true_iff in Hc.
  - now apply IH.
Qed.

(** X6. No tag is left in stripped text: after a [<] of it there is no [>];
    stripping it again changes nothing. *)
Theorem stripHtml_leaves_no_tag (html : string) :
  (forall pre post : string,
     stripHtml html = pre ++ String "<" post -> hasChar ">" post = false)
  /\ stripHtml (stripHtml html) = stripHtml html.
Proof.
  pose proof (proj1 (stripSpans_noTag html)) as H.
  fold (stripHtml html) in H. split.
  - intros pre post E. rewrite E in H. now apply noTag_after_lt in H.
  - now apply noTag_fixed.
Qed.

(** ** Escaping: what it keeps and what it removes *)

(** X2. No [<], [>] or double quote is left in HTML-escaped text. *)
Theorem escapeHtml_leaves_no_metacharacter (s : string) :
  hasChar "<" (escapeHtml s) = false /\
  hasChar ">" (escapeHtml s) = false /\
  hasChar "034" (escapeHtml s) = false.
Proof.
  rewrite escapeHtml_fourCharacterEscaped. unfold fourCharacterEscaped.
  induction s as [|a s (IH1 & IH2 & IH3)]; simpl; [now repeat split|].
  rewrite !hasChar_app, IH1, IH2, IH3, !orb_false_r.
  repeat split; each_character a.
Qed.

Lemma substChars_plain (f : ascii -> string) (s : string) :
  (forall c, hasChar c s = true -> f c = String c EmptyString) ->
  substChars f s = s.
Proof.
  induction s as [|a s IH]; simpl; intros H; [reflexivity|].
  rewrite (H a) by (now rewrite Ascii.eqb_refl). simpl. f_equal.
  apply IH. intros c Hc. apply H. rewrite Hc. apply orb_true_r.
Qed.

(** X3. Both escapes work piece by piece, and text without the characters they
    replace passes through them as it is. *)
Theorem escapes_are_piecewise (a b : string) :
  escapeXml (a ++ b) = escapeXml a ++ escapeXml b
  /\ escapeHtml (a ++ b) = escapeHtml a ++ escapeHtml b
  /\ (hasChar "&" a = false -> hasChar "<" a = false ->
      hasChar ">" a = false -> hasChar "034" a = false ->
      escapeHtml a = a
      /\ (hasChar "'" a = false -> escapeXml a = a)).
Proof.
  split; [|split].
  - rewrite !escapeXml_fiveCharacterEscaped. apply substChars_app.
  - rewrite !escapeHtml_fourCharacterEscaped. apply substChars_app.
  - intros Hamp Hlt Hgt Hq. split.
    + rewrite escapeHtml_fourCharacterEscaped. apply substChars_plain.
      intros c Hc. unfold htmlEntity.
      destruct (Ascii.eqb_spec c "&") as [->|_]; [congruence|].
      destruct (Ascii.eqb_spec c "<") as [->|_]; [congruence|].
      destruct (Ascii.eqb_spec c ">") as [->|_]; [congruence|].
      destruct (Ascii.eqb_spec c "034") as [->|_]; [congruence|].
      reflexivity.
    + intros Hap. rewrite escapeXml_fiveCharacterEscaped.
      apply substChars_plain. intros c Hc. unfold xmlEntity.
      destruct (Ascii.eqb_spec c "&") as [->|_]; [congruence|].
      destruct (Ascii.eqb_spec c "<") as [->|_]; [congruence|].
      destruct (Ascii.eqb_spec c ">") as [->|_]; [congruence|].
      destruct (Ascii.eqb_spec c "034") as [->|_]; [congruence|].
      destruct (Ascii.eqb_spec c "'") as [->|_]; [congruence|].
      reflexivity.
Qed.

(** A character-wise substitution loses nothing when no replacement is
    empty and no two replacements can open the same text. *)
Lemma substChars_injective (f : ascii -> string) :
  (forall a, f a <> EmptyString) ->
  (forall a b x y, f a ++ x = f b ++ y -> a = b /\ x = y) ->
  forall s1 s2, substChars f s1 = substChars f s2 -> s1 = s2.
Proof.
  intros Hne Hcode. induction s1 as [|a s1 IH]; intros [|b s2] H; simpl in H.
  - reflexivity.
  - exfalso. destruct (f b) eqn:E; [now apply (Hne b)|discriminate].
  - exfalso. destruct (f a) eqn:E; [now apply (Hne a)|discriminate].
  - destruct (Hcode _ _ _ _ H) as [-> H']. f_equal. now apply IH.
Qed.

Lemma xmlEntity_cases (a : ascii) :
  (a = "&" \/ a = "<" \/ a = ">" \/ a = "034" \/ a = "'")%char
  \/ (xmlEntity a = String a EmptyString /\ a <> "&"%char).
Proof.
  unfold xmlEntity.
  destruct (Ascii.eqb_spec a "&"); [auto|].
  destruct (Ascii.eqb_spec a "<"); [auto|].
  destruct (Ascii.eqb_spec a ">"); [auto|].
  destruct (Ascii.eqb_spec a "034"); [auto 6|].
  destruct (Ascii.eqb_spec a "'"); [auto 6|]. now right.
Qed.

Lemma htmlEntity_cases (a : ascii) :
  (a = "&" \/ a = "<" \/ a = ">" \/ a = "034")%char
  \/ (htmlEntity a = String a EmptyString /\ a <> "&"%char).
Proof.
  unfold htmlEntity.
  destruct (Ascii.eqb_spec a "&"); [auto|].
  destruct (Ascii.eqb_spec a "<"); [auto|].
  destruct (Ascii.eqb_spec a ">"); [auto|].
  destruct (Ascii.eqb_spec a "034"); [auto 6|]. now right.
Qed.

Ltac entity_clash H :=
  simpl in H; first [ discriminate H | injection H; intros; subst; auto; congruence ].

(** X4. Escaping loses nothing: two texts with one escaped form are one text. *)
Theorem escapes_are_injective (s1 s2 : string) :
  (escapeXml s1 = escapeXml s2 -> s1 = s2)
  /\ (escapeHtml s1 = escapeHtml s2 -> s1 = s2).
Proof.
  split; intros H.
  - rewrite !escapeXml_fiveCharacterEscaped in H.
    revert H. apply substChars_injective.
    + intros a. destruct (xmlEntity_cases a) as [[->|[->|[->|[->| ->]]]]|[E _]];
        try discriminate. rewrite E. discriminate.
    + intros a b x y H.
      destruct (xmlEntity_cases a) as [[->|[->|[->|[->| ->]]]]|[Ea Na]];
        destruct (xmlEntity_cases b) as [[->|[->|[->|[->| ->]]]]|[Eb Nb]];
        rewrite ?Ea, ?Eb in H; entity_clash H.
  - rewrite !escapeHtml_fourCharacterEscaped in H.
    revert H. apply substChars_injective.
    + intros a. destruct (htmlEntity_cases a) as [[->|[->|[->| ->]]]|[E _]];
        try discriminate. rewrite E. discriminate.
    + intros a b x y H.
      destruct (htmlEntity_cases a) as [[->|[->|[->| ->]]]|[Ea Na]];
        destruct (htmlEntity_cases b) as [[->|[->|[->| ->]]]|[Eb Nb]];
        rewrite ?Ea, ?Eb in H; entity_clash H.
Qed.

(** ** Sorting and filtering together *)

Lemma filter_filter_swap {A : Type} (f g : A -> bool) (l : list A) :
  filter f (filter g l) = filter g (filter f l).
Proof.
  induction l as [|x l IH]; simpl; [reflexivity|].
  destruct (f x) eqn:F, (g x) eqn:G; simpl; rewrite ?F, ?G, IH; reflexivity.
Qed.

Lemma filter_keeps_Forall {A : Type} (P : A -> Prop) (f : A -> bool)
    (l : list A) :
  Forall P l -> Forall P (filter f l).
Proof.
  rewrite !Forall_forall. intros H a Ha. apply H. now apply filter_In in Ha.
Qed.

Lemma filter_keeps_StronglySorted {A : Type} (R : A -> A -> Prop)
    (f : A -> bool) (l : list A) :
  StronglySorted R l -> StronglySorted R (filter f l).
Proof.
  induction 1 as [|x l S IH F]; simpl; [constructor|].
  destruct (f x); [|exact IH].
  constructor; [exact IH | now apply filter_keeps_Forall].
Qed.

Section SortAndFilterFacts.
Context {rt : Runtime}.

(** X10. Sorting loses, adds and merges nothing, whether the dates parse or
    not: the list has each product as often as the payload has it. *)
Theorem flattenAndSort_keeps_every_product (validated : LandingPage) :
  Permutation (flattenAndSort validated) (encounterOrder (data validated))
  /\ forall p : Product,
       count_occ Product_eq_dec (flattenAndSort validated) p
       = count_occ Product_eq_dec (encounterOrder (data validated)) p.
Proof.
  assert (Permutation (flattenAndSort validated)
            (encounterOrder (data validated))) as H.
  { unfold flattenAndSort. rewrite collectProducts_encounterOrder.
    apply Array_sort_Permutation. }
  split; [exact H|].
  intros p. now apply (Permutation_count_occ Product_eq_dec).
Qed.

(** X11. A payload that lists its products newest first already is handed on
    in the order it lists them. *)
Theorem flattenAndSort_of_sorted_payload (validated : LandingPage) :
  Forall (parses startTime) (encounterOrder (data validated)) ->
  Descending startTime (encounterOrder (data validated)) ->
  flattenAndSort validated = encounterOrder (data validated).
Proof.
  intros Hp Hs. unfold flattenAndSort.
  rewrite collectProducts_encounterOrder, compareByStart_newestFirst.
  apply (stable_sort_unique startTime).
  - now apply Array_sort_Descending.
  - exact Hs.
  - intros t. now apply Array_sort_stable.
Qed.

(** X12. Filtering the sorted list is sorting the filtered list: a category
    feed is newest first, with ties in encounter order. *)
Theorem filter_and_sort_commute (validated : LandingPage) (category : Selector) :
  Forall (parses startTime) (encounterOrder (data validated)) ->
  filterByCategory (flattenAndSort validated) category
  = Array_sort compareByStart
      (filterByCategory (encounterOrder (data validated)) category)
  /\ Descending startTime (filterByCategory (flattenAndSort validated) category).
Proof.
  intros Hp.
  assert (Descending startTime
            (filterByCategory (flattenAndSort validated) category)) as Hd.
  { unfold filterByCategory, Descending. apply filter_keeps_StronglySorted.
    unfold flattenAndSort.
    rewrite collectProducts_encounterOrder, compareByStart_newestFirst.
    now apply Array_sort_Descending. }
  split; [|exact Hd].
  assert (Forall (parses startTime)
            (filterByCategory (encounterOrder (data validated)) category))
    as Hpf by now apply filter_keeps_Forall.
  rewrite compareByStart_newestFirst.
  apply (stable_sort_unique startTime).
  - exact Hd.
  - now apply Array_sort_Descending.
  - intros t. rewrite (Array_sort_stable startTime t _ Hpf).
    unfold filterByCategory, flattenAndSort. rewrite filter_filter_swap.
    rewrite collectProducts_encounterOrder, compareByStart_newestFirst.
    rewrite (Array_sort_stable startTime t _ Hp).
    apply filter_filter_swap.
Qed.

(** X13. Filtering twice by one category is filtering once; filtering by two
    categories leaves nothing. *)
Theorem filterByCategory_twice (selected : list Product) (c1 c2 : Selector) :
  filterByCategory (filterByCategory selected c1) c1
  = filterByCategory selected c1
  /\ (c1 <> c2 -> filterByCategory (filterByCategory selected c1) c2 = []).
Proof.
  unfold filterByCategory. split.
  - apply forallb_filter_id, forallb_filter.
  - intros N. induction selected as [|p selected IH]; simpl; [reflexivity|].
    destruct (String.eqb_spec (tile_stamp p) (selectorText c1)) as [E|_];
      [|exact IH].
    simpl. rewrite IH.
    destruct (String.eqb_spec (tile_stamp p) (selectorText c2)) as [E2|_];
      [|reflexivity].
    exfalso. apply N. rewrite E in E2. now destruct c1, c2.
Qed.

End SortAndFilterFacts.

(** ** Validation: round trip, unknown members, missing members *)

Lemma parseItems_map {A} (element : Schema A) (enc : A -> Json) (p : Path)
    (l : list A) (i : nat) :
  (forall x, In x l -> forall q, element q (Some (enc x)) = inr x) ->
  parseItems element p i (map enc l) = inr l.
Proof.
  revert i. induction l as [|x l IH]; intros i H; simpl; [reflexivity|].
  rewrite (H x (or_introl eq_refl)), IH; [reflexivity|].
  intros y Hy. apply H. now right.
Qed.

Section ValidationRoundTrip.
Context {rt : Runtime}.

Lemma ProductSchema_productJson (p : Product) (q : Path) :
  URL_check (tile_image p) = Some (tile_image p) ->
  ProductSchema q (Some (productJson p)) = inr p.
Proof.
  intros H. unfold ProductSchema, productJson, z_object, withKey, shapeOf.
  cbn [getMember fst snd String.eqb Ascii.eqb Bool.eqb z_string z_url pap].
  rewrite H. now destruct p.
Qed.

Lemma CategorySchema_categoryJson (c : CategoryData) (q : Path) :
  Forall (fun p => URL_check (tile_image p) = Some (tile_image p))
    (flat_map products (mosaic c)) ->
  CategorySchema q (Some (categoryJson c)) = inr c.
Proof.
  intros H. rewrite Forall_forall in H.
  unfold CategorySchema, categoryJson, z_object, withKey, shapeOf, z_array.
  cbn [getMember fst snd String.eqb Ascii.eqb Bool.eqb].
  rewrite (parseItems_map SectionSchema sectionJson); [now destruct c|].
  intros sec Hsec q'.
  unfold SectionSchema, sectionJson, z_object, withKey, shapeOf, z_array.
  cbn [getMember fst snd String.eqb Ascii.eqb Bool.eqb].
  rewrite (parseItems_map ProductSchema productJson); [now destruct sec|].
  intros p Hp q''. apply ProductSchema_productJson, H.
  apply in_flat_map. now exists sec.
Qed.

(** X14. The payload that carries a landing page validates to that landing
    page, when the URL check hands the image URLs on as they are. *)
Theorem payload_round_trip (validated : LandingPage) :
  Forall (fun p => URL_check (tile_image p) = Some (tile_image p))
    (encounterOrder (data validated)) ->
  LandingPageSchema [] (Some (landingPageJson validated)) = inr validated.
Proof.
  intros H. destruct validated as [[b g s]].
  unfold encounterOrder in H. cbn [data books games software] in H.
  apply Forall_app in H. destruct H as [Hb H].
  apply Forall_app in H. destruct H as [Hg Hs].
  unfold LandingPageSchema, landingPageJson, DataSchema, z_object, withKey,
    shapeOf, z_optional.
  cbn [data books games software].
  destruct b as [b|], g as [g|], s as [s|];
    cbn [categoryMember app getMember fst snd String.eqb Ascii.eqb Bool.eqb];
    rewrite ?CategorySchema_categoryJson by assumption; reflexivity.
Qed.

Ltac other_key k N :=
  repeat match goal with
         | |- context [String.eqb k ?f] =>
             replace (String.eqb k f) with false
               by (symmetry; apply String.eqb_neq; intros ->; apply N;
                   simpl; auto 10)
         end.

(** X15. A member that the schema does not name changes nothing: an unknown
    member of a product, and a category other than the three. *)
Theorem unknown_members_are_ignored (k : string) (v : Json)
    (members : list (string * Json)) (q : Path) :
  (~ In k requiredFields ->
   ProductSchema q (Some (JObject ((k, v) :: members)))
   = ProductSchema q (Some (JObject members)))
  /\ (~ In k categoryKeys ->
      DataSchema q (Some (JObject ((k, v) :: members)))
      = DataSchema q (Some (JObject members))).
Proof.
  split; intros N.
  - unfold ProductSchema, z_object, withKey, shapeOf.
    cbn [getMember fst snd]. other_key k N. reflexivity.
  - unfold DataSchema, z_object, withKey, shapeOf.
    cbn [getMember fst snd]. other_key k N. reflexivity.
Qed.

(** X16. A payload that is no object, and a payload without the member [data],
    fail with one issue, at the root and at [data]; the homepage then
    answers with that issue. *)
Theorem payload_without_data (now : Z) (origin : string)
    (upstream : FetchOutcome) (rawData : Json) :
  Parses upstream rawData ->
  (notAnObject rawData ->
   LandingPageSchema [] (Some rawData)
   = inl [mkIssue (invalid_type "object") []])
  /\ (forall members,
        rawData = JObject members -> getMember "data" members = None ->
        LandingPageSchema [] (Some rawData)
        = inl [mkIssue (invalid_type "object") [Key "data"]]
        /\ serve now upstream origin "/"
           = mkResponse 500 [("Content-Type", "text/plain")]
               ("Error: " ++ ZodError_message
                              [mkIssue (invalid_type "object") [Key "data"]])).
Proof.
  intros Hp. split.
  - intros H. now destruct rawData.
  - intros members -> Hd.
    assert (LandingPageSchema [] (Some (JObject members))
            = inl [mkIssue (invalid_type "object") [Key "data"]]) as Hv.
    { unfold LandingPageSchema, z_object, withKey, shapeOf.
      cbn [fst snd]. rewrite Hd. reflexivity. }
    split; [exact Hv|].
    unfold serve. cbn [String.eqb Ascii.eqb Bool.eqb]. unfold handleHomepage.
    rewrite (fetchBundles_Parses _ _ Hp). unfold LandingPageSchema_parse.
    now rewrite Hv.
Qed.

End ValidationRoundTrip.

(** ** Documents list their entries in the order of the products *)

Lemma join_from (sep : string) (before after : list string) (x : string) :
  exists pre,
    join sep (before ++ x :: after)
    = pre ++ x ++ match after with
                  | [] => EmptyString
                  | _ :: _ => sep ++ join sep after
                  end.
Proof.
  induction before as [|b before (pre & IH)]; simpl.
  - exists EmptyString. destruct after; simpl; [now rewrite str_app_nil_r|].
    reflexivity.
  - destruct (before ++ x :: after)%list eqn:E; [now destruct before|].
    exists (b ++ sep ++ pre). rewrite IH, !str_app_assoc. reflexivity.
Qed.

Lemma OccursInOrder_join (sep : string) (l1 l2 l3 : list string) (x y : string) :
  OccursInOrder x y (join sep (l1 ++ x :: l2 ++ y :: l3)).
Proof.
  destruct (join_from sep l1 (l2 ++ y :: l3) x) as (pre & E).
  destruct (join_from sep l2 l3 y) as (pre2 & E2).
  rewrite E. destruct (l2 ++ y :: l3)%list eqn:N; [now destruct l2|].
  rewrite E2. exists pre, (sep ++ pre2). eexists.
  rewrite !str_app_assoc. reflexivity.
Qed.

Lemma OccursInOrder_app_r (x y a s : string) :
  OccursInOrder x y s -> OccursInOrder x y (a ++ s).
Proof.
  intros (pre & mid & post & ->). exists (a ++ pre), mid, post.
  now rewrite str_app_assoc.
Qed.

Lemma OccursInOrder_app_l (x y s b : string) :
  OccursInOrder x y s -> OccursInOrder x y (s ++ b).
Proof.
  intros (pre & mid & post & ->). exists pre, mid, (post ++ b).
  now rewrite !str_app_assoc.
Qed.

Ltac find_in_order H :=
  lazymatch goal with
  | |- OccursInOrder _ _ (_ ++ _) =>
      first [ apply OccursInOrder_app_l; exact H
            | apply OccursInOrder_app_r; find_in_order H ]
  end.

Lemma map_two {A B} (f : A -> B) (l1 l2 l3 : list A) (p q : A) :
  map f (l1 ++ p :: l2 ++ q :: l3)
  = (map f l1 ++ f p :: map f l2 ++ f q :: map f l3)%list.
Proof. now rewrite map_app, (map_cons f p), map_app. Qed.

Section DocumentOrder.
Context {rt : Runtime}.

(** X23. In the feed and on the page, of two products the entry of the one
    that stands first in the list stands first in the document. *)
Theorem entries_in_product_order (now : Z) (l1 l2 l3 : list Product)
    (p q : Product) (title canonicalUrl : string) :
  OccursInOrder (rssItem p) (rssItem q)
    (generateRss now (l1 ++ p :: l2 ++ q :: l3) title canonicalUrl)
  /\ OccursInOrder (homepageEntry now p) (homepageEntry now q)
       (generateHomepage now (l1 ++ p :: l2 ++ q :: l3)).
Proof.
  split.
  - pose proof (OccursInOrder_join NL (map rssItem l1) (map rssItem l2)
                  (map rssItem l3) (rssItem p) (rssItem q)) as H.
    rewrite <- map_two in H. unfold generateRss. find_in_order H.
  - pose proof (OccursInOrder_join NL (map (homepageEntry now) l1)
                  (map (homepageEntry now) l2) (map (homepageEntry now) l3)
                  (homepageEntry now p) (homepageEntry now q)) as H.
    rewrite <- map_two in H. unfold generateHomepage. find_in_order H.
Qed.

End DocumentOrder.

(** ** Requests: statuses, headers, failures *)

Section RequestExtras.
Context {rt : Runtime}.

(** X17. [fetchBundles] returns a list exactly when the page delivers a payload
    that passes validation, and the list is that payload, flattened and
    sorted: no product reaches a renderer unvalidated. *)
Theorem fetchBundles_returns_validated_products (upstream : FetchOutcome)
    (result : list Product) :
  fetchBundles upstream = inr result
  <-> exists validated,
        Delivers upstream validated /\ result = flattenAndSort validated.
Proof.
  split.
  - apply fetchBundles_inversion.
  - intros (validated & Hd & ->). now apply fetchBundles_Delivers.
Qed.

(** X18. The tier of a product that has time left is [urgent] up to 24 hours,
    [soon] up to 168 hours and [ok] beyond; a product whose end date does
    not parse is [ok]. *)
Theorem tier_of_a_running_or_undated_product (now : Z) (p : Product) :
  (forall t : Z,
     Date_getTime (end_date_datetime p) = Some t -> (0 < t - now)%Z ->
     statusClassAt now p =
       if (t - now <=? 24 * 3600000)%Z then "urgent"
       else if (t - now <=? 168 * 3600000)%Z then "soon"
       else "ok")
  /\ (Date_getTime (end_date_datetime p) = None -> statusClassAt now p = "ok").
Proof.
  split.
  - intros t Hend Hpos. now apply statusClassAt_time_left.
  - intros Hend. unfold statusClassAt. rewrite Hend. apply statusClassOf_NaN.
Qed.

Lemma status_of_fetching_route (now : Z) (upstream : FetchOutcome)
    (origin path : string) :
  In path ("/" :: feedPaths) ->
  status (serve now upstream origin path)
  = match fetchBundles upstream with
    | inr _ => 200%N
    | inl _ => 500%N
    end.
Proof.
  intros Hp. simpl in Hp.
  repeat (destruct Hp as [<-|Hp];
          [unfold serve; cbn [String.eqb Ascii.eqb Bool.eqb];
           unfold handleHomepage, handleRssRequest;
           destruct (fetchBundles upstream) as [e|fetched];
           [reflexivity
           |try destruct (selectProducts fetched _); reflexivity]|]).
  destruct Hp.
Qed.

(** X19. On a route that fetches, the status is 200 exactly when the whole
    pipeline succeeded, and 500 otherwise. *)
Theorem status_200_iff_pipeline_succeeds (now : Z) (upstream : FetchOutcome)
    (origin path : string) :
  In path ("/" :: feedPaths) ->
  (status (serve now upstream origin path) = 200%N
   <-> exists fetched, fetchBundles upstream = inr fetched)
  /\ (status (serve now upstream origin path) = 200%N
      \/ status (serve now upstream origin path) = 500%N).
Proof.
  intros Hp. rewrite (status_of_fetching_route _ _ _ _ Hp).
  destruct (fetchBundles upstream) as [e|fetched].
  - split; [|now right]. split; [discriminate|]. intros [? ?]. discriminate.
  - split; [|now left]. split; [now eexists | reflexivity].
Qed.

(** X20. The cache header is sent with every 200 and with no other answer. *)
Theorem cache_header_only_on_200 (now : Z) (upstream : FetchOutcome)
    (origin path : string) :
  getHeader "Cache-Control" (serve now upstream origin path)
  = if (status (serve now upstream origin path) =? 200)%N
    then Some "public, max-age=3600" else None.
Proof.
  unfold serve, handleHomepage, handleRssRequest.
  repeat match goal with
         | |- context [String.eqb path ?lit] => destruct (String.eqb path lit)
         end;
    try (destruct (fetchBundles upstream) as [e|fetched];
         [|try destruct (selectProducts fetched _)]);
    reflexivity.
Qed.

(** X21. A fetch that throws and a script text that is no JSON end the request
    with a 500 that carries the message of what was thrown, or [Unknown
    error] when an object that is no error was thrown. *)
Theorem thrown_errors_are_answered (now : Z) (origin : string) :
  (forall e : Thrown,
     serve now (Rejects e) origin "/"
     = mkResponse 500 [("Content-Type", "text/plain")]
         ("Error: " ++ messageOf e)
     /\ forall path, In path feedPaths ->
          serve now (Rejects e) origin path
          = mkResponse 500 [] ("Error generating RSS feed: " ++ messageOf e))
  /\ messageOf OtherValue = "Unknown error"
  /\ forall (response : Response) (raw message : string),
       ok response = true ->
       matchScriptTag (body response) = Some raw -> raw <> EmptyString ->
       JSON_parse raw = inl message ->
       fetchBundles (Resolves response) = inl (ErrorObject message)
       /\ serve now (Resolves response) origin "/"
          = mkResponse 500 [("Content-Type", "text/plain")]
              ("Error: " ++ message).
Proof.
  split; [|split].
  - intros e. split; [reflexivity|].
    intros path Hp. simpl in Hp.
    repeat (destruct Hp as [<-|Hp]; [reflexivity|]). destruct Hp.
  - reflexivity.
  - intros response raw message Hok Hm Hraw Hj.
    assert (fetchBundles (Resolves response) = inl (ErrorObject message)) as Hf.
    { unfold fetchBundles. simpl. rewrite Hok, Hm. simpl.
      destruct raw; [congruence|]. now rewrite Hj. }
    split; [exact Hf|].
    unfold serve. cbn [String.eqb Ascii.eqb Bool.eqb]. unfold handleHomepage.
    now rewrite Hf.
Qed.

(** X22. A product whose tag is none of the three selectors has its entry in
    the feed of [/rss] and on the homepage, and is in no filtered list. *)
Theorem unknown_tag_only_in_the_unfiltered_feed (now : Z)
    (upstream : FetchOutcome) (origin : string) (before after : list Product)
    (p : Product) :
  fetchBundles upstream = inr (before ++ p :: after)%list ->
  (forall c : Selector, tile_stamp p <> selectorText c) ->
  Occurs (rssItem p) (body (serve now upstream origin "/rss"))
  /\ Occurs (homepageEntry now p) (body (serve now upstream origin "/"))
  /\ forall c : Selector,
       ~ In p (filterByCategory (before ++ p :: after) c).
Proof.
  intros Hf Htag. split; [|split].
  - unfold serve. cbn [String.eqb Ascii.eqb Bool.eqb].
    unfold handleRssRequest. rewrite Hf. cbn [selectProducts body okResponse].
    pose proof (Occurs_join NL (map rssItem before) (map rssItem after)
                  (rssItem p)) as H.
    change (map rssItem before ++ rssItem p :: map rssItem after)%list
      with (map rssItem before ++ map rssItem (p :: after))%list in H.
    rewrite <- map_app in H.
    unfold generateRss. find_occurrence H.
  - unfold serve. cbn [String.eqb Ascii.eqb Bool.eqb].
    unfold handleHomepage. rewrite Hf. cbn [body okResponse].
    pose proof (Occurs_join NL (map (homepageEntry now) before)
                  (map (homepageEntry now) after) (homepageEntry now p)) as H.
    change (map (homepageEntry now) before
            ++ homepageEntry now p :: map (homepageEntry now) after)%list
      with (map (homepageEntry now) before
            ++ map (homepageEntry now) (p :: after))%list in H.
    rewrite <- map_app in H.
    unfold generateHomepage. find_occurrence H.
  - intros c Hin. unfold filterByCategory in Hin.
    apply filter_In in Hin. destruct Hin as [_ E].
    apply String.eqb_eq in E. now apply (Htag c).
Qed.

End RequestExtras.

(** ** The further properties on the samples *)

Lemma matchScriptTag_leftmost_shortest_witness :
  exists pre post,
    body Sample.gamePage
    = pre ++ scriptOpen ++ Sample.gamePayloadText ++ scriptClose ++ post
    /\ forall pre2 x2 post2,
         body Sample.gamePage
         = pre2 ++ scriptOpen ++ x2 ++ scriptClose ++ post2 ->
         (String.length pre <= String.length pre2)%nat
         /\ (String.length pre2 = String.length pre ->
             (String.length Sample.gamePayloadText <= String.length x2)%nat).
Proof.
  apply (matchScriptTag_leftmost_shortest (body Sample.gamePage)
           Sample.gamePayloadText).
  vm_compute. reflexivity.
Defined.

Lemma fetchBundles_needs_a_filled_script_tag_witness :
  fetchBundles (Resolves Sample.emptyTagPage)
  = inl (ErrorObject "Could not find landingPage-json-data script tag").
Proof.
  apply (fetchBundles_needs_a_filled_script_tag Sample.emptyTagPage).
  - reflexivity.
  - right. vm_compute. reflexivity.
Defined.

Lemma sorted_dates_parse :
  Forall (parses startTime) (encounterOrder (data Sample.sortedPayload)).
Proof. repeat constructor; intros H; vm_compute in H; discriminate H. Defined.

Lemma flattenAndSort_of_sorted_payload_witness :
  flattenAndSort Sample.sortedPayload = [Sample.newGame; Sample.oldGame].
Proof.
  apply (flattenAndSort_of_sorted_payload Sample.sortedPayload).
  - exact sorted_dates_parse.
  - repeat constructor. apply Z.leb_le. vm_compute. reflexivity.
Defined.

Lemma filter_and_sort_commute_witness :
  filterByCategory (flattenAndSort Sample.shelfPayload) SelGames
  = Array_sort compareByStart
      (filterByCategory (encounterOrder (data Sample.shelfPayload)) SelGames)
  /\ Descending startTime
       (filterByCategory (flattenAndSort Sample.shelfPayload) SelGames).
Proof.
  apply (filter_and_sort_commute Sample.shelfPayload SelGames).
  exact shelf_dates_parse.
Defined.

Lemma payload_round_trip_witness :
  LandingPageSchema [] (Some (landingPageJson Sample.shelfPayload))
  = inr Sample.shelfPayload.
Proof.
  apply (payload_round_trip Sample.shelfPayload).
  repeat constructor.
Defined.

Lemma noDataPage_Parses : Parses (Resolves Sample.noDataPage) (JObject []).
Proof.
  exists Sample.noDataPage, "{}".
  repeat split; try (vm_compute; reflexivity). discriminate.
Defined.

Lemma payload_without_data_witness :
  LandingPageSchema [] (Some (JObject []))
  = inl [mkIssue (invalid_type "object") [Key "data"]]
  /\ serve Sample.now (Resolves Sample.noDataPage) Sample.origin "/"
     = mkResponse 500 [("Content-Type", "text/plain")]
         ("Error: " ++ ZodError_message
                        [mkIssue (invalid_type "object") [Key "data"]]).
Proof.
  apply (proj2 (payload_without_data Sample.now Sample.origin
                  (Resolves Sample.noDataPage) (JObject [])
                  noDataPage_Parses) []); reflexivity.
Defined.

Lemma tier_of_a_running_or_undated_product_witness :
  statusClassAt Sample.now Sample.newGame = "urgent".
Proof.
  apply (proj1 (tier_of_a_running_or_undated_product Sample.now Sample.newGame)
           1704542400000%Z).
  - vm_compute. reflexivity.
  - vm_compute. reflexivity.
Defined.

Lemma status_200_iff_pipeline_succeeds_witness :
  (status (serve Sample.now (Resolves Sample.unavailable) Sample.origin "/games")
   = 200%N
   <-> exists fetched, fetchBundles (Resolves Sample.unavailable) = inr fetched)
  /\ (status (serve Sample.now (Resolves Sample.unavailable) Sample.origin
                "/games") = 200%N
      \/ status (serve Sample.now (Resolves Sample.unavailable) Sample.origin
                   "/games") = 500%N).
Proof.
  apply (status_200_iff_pipeline_succeeds Sample.now
           (Resolves Sample.unavailable) Sample.origin "/games").
  simpl. auto.
Defined.

Lemma unknown_tag_only_in_the_unfiltered_feed_witness :
  Occurs (rssItem Sample.comic)
    (body (serve Sample.now (Resolves Sample.comicPage) Sample.origin "/rss"))
  /\ Occurs (homepageEntry Sample.now Sample.comic)
       (body (serve Sample.now (Resolves Sample.comicPage) Sample.origin "/"))
  /\ forall c : Selector,
       ~ In Sample.comic
           (filterByCategory ([] ++ Sample.comic :: [Sample.game]) c).
Proof.
  apply (unknown_tag_only_in_the_unfiltered_feed Sample.now
           (Resolves Sample.comicPage) Sample.origin [] [Sample.game]
           Sample.comic).
  - vm_compute. reflexivity.
  - intros []; discriminate.
Defined.
